(** * Swapit mediator backend (backend/app.py): model and properties

    A shallow embedding of the Flask / Socket.IO handlers of
    [backend/app.py].  The three MongoDB collections are lists in
    insertion order ([find_one] returns the first match, [insert_one]
    appends), the module-level dict [session_index] is a finite map of
    finite maps, and everything a handler does to the outside (emitted
    Socket.IO events, room membership) is recorded in the [World].

    Identifiers carried by request payloads are strings (or [None]), so
    the payloads are records: the [KeyError] of a payload that lacks a
    required key and query operators smuggled in as dicts are outside
    the model.  Console output of [print] is not part of the state. *)

From Stdlib Require Import ZArith String Ascii List.
From stdpp Require Import base option list strings pretty gmap.

Import ListNotations.
Local Open Scope string_scope.
Local Open Scope Z_scope.

(** ** Python values *)

(** The scalar JSON values a payload field or a document field holds. *)
Inductive pyval : Type :=
  | PNone
  | PInt (z : Z)
  | PStr (s : string).

(** [str(v)], as an f-string placeholder renders it. *)
Definition py_str (v : pyval) : string :=
  match v with
  | PNone => "None"
  | PInt z => pretty z
  | PStr s => s
  end.

(** A party identifier: a string, or [None] when the JSON field was
    null or absent under [dict.get]. *)
Definition ident : Type := option string.

Definition ident_eqb (a b : ident) : bool := bool_decide (a = b).

Definition nl : string := String "010"%char "".
Definition dquote : string := String "034"%char "".

(** ** Documents *)

Record Ticket : Type := mkTicket {
  t_ticketId : string;
  t_sellerId : ident;
  t_category : pyval;
  t_details : gmap string pyval;
  t_askPrice : pyval;
  t_status : string;
  t_createdAt : Z
}.

Record Negotiation : Type := mkNegotiation {
  n_negotiationId : string;
  n_ticketId : string;
  n_sellerId : ident;
  n_buyerId : ident;
  n_status : string;
  n_agreedPrice : pyval;
  n_createdAt : Z;
  n_lastUpdate : Z
}.

(** The dict built by [store_message]: exactly these four keys. *)
Record Message : Type := mkMessage {
  m_negotiationId : string;
  m_role : string;
  m_text : string;
  m_ts : Z
}.

(** ** Socket.IO events *)

(** The payload of an emitted event: a bare string, or the dict
    [{"message": s}]. *)
Inductive evdata : Type :=
  | Text (s : string)
  | MessageDict (s : string).

Record Event : Type := mkEvent {
  ev_name : string;
  ev_data : evdata;
  ev_to : string
}.

(** ** The world a handler runs in *)

Record World : Type := mkWorld {
  tickets : list Ticket;
  negos : list Negotiation;
  messages : list Message;
  session_index : gmap string (gmap string string);
  rooms : gset (string * string);
  outbox : list Event;
  steps : nat
}.

Definition set_tickets (f : list Ticket → list Ticket) (w : World) : World :=
  mkWorld (f (tickets w)) (negos w) (messages w) (session_index w)
          (rooms w) (outbox w) (steps w).

Definition set_negos (f : list Negotiation → list Negotiation) (w : World) : World :=
  mkWorld (tickets w) (f (negos w)) (messages w) (session_index w)
          (rooms w) (outbox w) (steps w).

Definition set_messages (f : list Message → list Message) (w : World) : World :=
  mkWorld (tickets w) (negos w) (f (messages w)) (session_index w)
          (rooms w) (outbox w) (steps w).

Definition set_session_index
    (f : gmap string (gmap string string) → gmap string (gmap string string))
    (w : World) : World :=
  mkWorld (tickets w) (negos w) (messages w) (f (session_index w))
          (rooms w) (outbox w) (steps w).

Definition set_rooms (f : gset (string * string) → gset (string * string))
    (w : World) : World :=
  mkWorld (tickets w) (negos w) (messages w) (session_index w)
          (f (rooms w)) (outbox w) (steps w).

Definition set_outbox (f : list Event → list Event) (w : World) : World :=
  mkWorld (tickets w) (negos w) (messages w) (session_index w)
          (rooms w) (f (outbox w)) (steps w).

Definition tick (w : World) : World :=
  mkWorld (tickets w) (negos w) (messages w) (session_index w)
          (rooms w) (outbox w) (S (steps w)).

(** ** Handlers as state transformers that may raise *)

Inductive exn : Type :=
  | NameError (name : string)
  | TypeError (msg : string).

Inductive outcome (A : Type) : Type :=
  | Returned (a : A)
  | Raised (e : exn).
Arguments Returned {A} a.
Arguments Raised {A} e.

Definition M (A : Type) : Type := World → outcome A * World.

Definition ret {A} (a : A) : M A := fun w => (Returned a, w).

Definition bind {A B} (c : M A) (k : A → M B) : M B :=
  fun w =>
    match c w with
    | (Returned a, w') => k a w'
    | (Raised e, w') => (Raised e, w')
    end.

Definition raise {A} (e : exn) : M A := fun w => (Raised e, w).
Definition gets {A} (f : World → A) : M A := fun w => (Returned (f w), w).
Definition modify (f : World → World) : M unit := fun w => (Returned tt, f w).

Notation "x <- c ;; k" := (bind c (fun x => k))
  (at level 100, c at next level, right associativity).
Notation "c ;;; k" := (bind c (fun _ => k))
  (at level 100, right associativity).

(** The world a handler leaves behind, and what it returned. *)
Definition exec {A} (c : M A) (w : World) : World := snd (c w).
Definition result {A} (c : M A) (w : World) : outcome A := fst (c w).

(** ** Collections *)

Fixpoint find_ticket (ticket_id : string) (l : list Ticket) : option Ticket :=
  match l with
  | [] => None
  | t :: l' =>
      if bool_decide (t_ticketId t = ticket_id) then Some t
      else find_ticket ticket_id l'
  end.

Fixpoint find_nego (negotiation_id : string) (l : list Negotiation)
    : option Negotiation :=
  match l with
  | [] => None
  | n :: l' =>
      if bool_decide (n_negotiationId n = negotiation_id) then Some n
      else find_nego negotiation_id l'
  end.

(** ** Name resolution at module level *)

(** The names bound in the module: lines 1-13 (imports), the
    module-level assignments and the function definitions. *)
Definition module_globals : list string :=
  [ "os"; "time"; "uuid"; "json"; "requests";
    "Flask"; "request"; "jsonify"; "CORS";
    "SocketIO"; "emit"; "join_room"; "leave_room";
    "MongoClient"; "Image"; "pytesseract"; "datetime"; "ObjectId";
    "app"; "socketio"; "MONGO_URI"; "client"; "db";
    "tickets"; "negos"; "messages"; "OLLAMA_HOST"; "OLLAMA_MODEL";
    "ask_ollama"; "utcnow"; "room_name"; "store_message";
    "process_ticket"; "upload_ticket"; "list_tickets";
    "start_negotiation"; "generate_questions"; "session_index";
    "on_connect"; "on_disconnect"; "join_as_seller"; "join_as_buyer";
    "buyer_to_agent"; "seller_to_agent"; "__name__" ].

(** The functions of the [builtins] module, and the exception class
    the handlers name; what else [builtins] binds is constants and
    further exception classes. *)
Definition builtins : list string :=
  [ "abs"; "aiter"; "all"; "anext"; "any"; "ascii"; "bin"; "bool";
    "breakpoint"; "bytearray"; "bytes"; "callable"; "chr";
    "classmethod"; "compile"; "complex"; "delattr"; "dict"; "dir";
    "divmod"; "enumerate"; "eval"; "exec"; "filter"; "float";
    "format"; "frozenset"; "getattr"; "globals"; "hasattr"; "hash";
    "help"; "hex"; "id"; "input"; "int"; "isinstance"; "issubclass";
    "iter"; "len"; "list"; "locals"; "map"; "max"; "memoryview";
    "min"; "next"; "object"; "oct"; "open"; "ord"; "pow"; "print";
    "property"; "range"; "repr"; "reversed"; "round"; "set";
    "setattr"; "slice"; "sorted"; "staticmethod"; "str"; "sum";
    "super"; "tuple"; "type"; "vars"; "zip"; "__import__";
    "Exception" ].

(** Looking up a free name of a function body: module globals, then
    builtins, else [NameError].  Only [generate_questions] names
    something the module does not bind, so only its model goes through
    the lookups. *)
Definition load_name (name : string) : M unit :=
  if bool_decide (name ∈ module_globals) then ret tt
  else if bool_decide (name ∈ builtins) then ret tt
  else raise (NameError name).

(** ** String indexing and slicing, as Python does it *)

Fixpoint find_char (c : ascii) (s : string) : option nat :=
  match s with
  | EmptyString => None
  | String a s' =>
      if bool_decide (a = c) then Some O
      else match find_char c s' with
           | Some i => Some (S i)
           | None => None
           end
  end.

Fixpoint rfind_char (c : ascii) (s : string) : option nat :=
  match s with
  | EmptyString => None
  | String a s' =>
      match rfind_char c s' with
      | Some i => Some (S i)
      | None => if bool_decide (a = c) then Some O else None
      end
  end.

(** [s.find(c)] and [s.rfind(c)]: the index, or [-1]. *)
Definition py_find (c : ascii) (s : string) : Z :=
  match find_char c s with
  | Some i => Z.of_nat i
  | None => -1
  end.

Definition py_rfind (c : ascii) (s : string) : Z :=
  match rfind_char c s with
  | Some i => Z.of_nat i
  | None => -1
  end.

(** A slice bound is counted from the end when negative, then clamped
    to the string. *)
Definition clamp_index (len i : Z) : Z :=
  if i <? 0 then Z.max 0 (i + len) else Z.min i len.

(** [s[a:b]]. *)
Definition py_slice (s : string) (a b : Z) : string :=
  let len := Z.of_nat (String.length s) in
  let a' := clamp_index len a in
  let b' := clamp_index len b in
  if b' <=? a' then ""
  else substring (Z.to_nat a') (Z.to_nat (b' - a')) s.

(** ** Request payloads and responses *)

Record UploadTicketReq : Type := mkUploadTicketReq {
  ut_sellerId : ident;
  ut_category : pyval;
  ut_details : option (gmap string pyval)
}.

Record StartNegotiationReq : Type := mkStartNegotiationReq {
  sn_ticketId : string;
  sn_buyerId : ident
}.

Record JoinSellerData : Type := mkJoinSellerData {
  js_negotiationId : string;
  js_sellerId : ident
}.

Record JoinBuyerData : Type := mkJoinBuyerData {
  jb_negotiationId : string;
  jb_buyerId : ident
}.

(** [message] and [budget] are read with [dict.get]. *)
Record BuyerMsgData : Type := mkBuyerMsgData {
  bm_negotiationId : string;
  bm_buyerId : ident;
  bm_message : option string;
  bm_budget : pyval
}.

Record SellerMsgData : Type := mkSellerMsgData {
  sm_negotiationId : string;
  sm_sellerId : ident;
  sm_message : option string;
  sm_minAcceptable : pyval
}.

(** What [generate_questions] hands to [jsonify]: the value parsed
    from a JSON text, or the one-element failure list. *)
Inductive questions : Type :=
  | ParsedJson (json_str : string)
  | FailedToGenerate.

Inductive body : Type :=
  | ErrorBody (msg : string)
  | NegotiationBody (n : Negotiation)
  | QuestionsBody (q : questions).

(** A JSON body and an HTTP status code. *)
Definition Response : Type := body * Z.

Definition fallback_text : string := "Sorry, I could not process that request.".

Section Handlers.

(** The collaborators, indexed by the step at which they are asked. *)

(** [int(time.time())]. *)
Variable clock : nat → Z.
(** [str(uuid.uuid4())]. *)
Variable uuid4 : nat → string.
(** The body of the [try] in [ask_ollama]: the stripped [response]
    field, or [None] when anything in it raises. *)
Variable ollama : nat → string → option string.
(** [json.dumps(details, ensure_ascii=False)]. *)
Variable json_dumps : gmap string pyval → string.
(** The stripped standard output of [ollama run llama3 prompt]. *)
Variable cli_output : nat → string → string.
(** Whether [json.loads] accepts a text. *)
Variable json_loads_ok : string → bool.

Definition ask_ollama (prompt : string) : M string :=
  fun w =>
    (Returned (match ollama (steps w) prompt with
               | Some r => r
               | None => fallback_text
               end),
     tick w).

Definition utcnow : M Z :=
  fun w => (Returned (clock (steps w)), tick w).

Definition new_uuid : M string :=
  fun w => (Returned (uuid4 (steps w)), tick w).

Definition room_name (negotiation_id : string) : string :=
  "neg-" +:+ negotiation_id.

Definition store_message (negotiation_id role text : string) : M unit :=
  ts <- utcnow ;;
  modify (set_messages (fun l => (l ++ [mkMessage negotiation_id role text ts])%list)).

(** [emit(name, data, to=sid)]; inside a handler [emit] without [to]
    addresses the connection that sent the event. *)
Definition emit (name : string) (data : evdata) (sid : string) : M unit :=
  modify (set_outbox (fun l => (l ++ [mkEvent name data sid])%list)).

Definition join_room (room sid : string) : M unit :=
  modify (set_rooms (fun r => {[ (room, sid) ]} ∪ r)).

(** [session_index.setdefault(negotiation_id, {})[key] = sid]. *)
Definition bind_session (negotiation_id key sid : string) : M unit :=
  modify (set_session_index (fun idx =>
    <[negotiation_id := <[key := sid]> (default ∅ (idx !! negotiation_id))]> idx)).

(** [session_index.get(negotiation_id, {}).get(key)]. *)
Definition resolve (negotiation_id key : string) (w : World) : option string :=
  default ∅ (session_index w !! negotiation_id) !! key.

(** *** REST *)

(** [insert_one] adds the [ObjectId] it assigns to the very dict it is
    given, under [_id]; [jsonify] is then handed that dict and cannot
    serialise the [ObjectId].  The ticket is stored, and the handler
    raises instead of answering 201. *)
Definition upload_ticket (data : UploadTicketReq) : M Response :=
  id <- new_uuid ;;
  let details := default ∅ (ut_details data) in
  let price := default PNone (details !! "price") in
  now <- utcnow ;;
  let ticket :=
    mkTicket id (ut_sellerId data) (ut_category data) details price
             "available" now in
  modify (set_tickets (fun l => (l ++ [ticket])%list)) ;;;
  raise (TypeError "Object of type ObjectId is not JSON serializable").

Definition start_negotiation (data : StartNegotiationReq) : M Response :=
  let ticket_id := sn_ticketId data in
  let buyer_id := sn_buyerId data in
  t <- gets (fun w => find_ticket ticket_id (tickets w)) ;;
  match t with
  | None => ret (ErrorBody "Ticket not found", 404)
  | Some t =>
      if negb (bool_decide (t_status t = "available")) then
        ret (ErrorBody "Ticket not available", 400)
      else
        id <- new_uuid ;;
        created <- utcnow ;;
        updated <- utcnow ;;
        let nego :=
          mkNegotiation id ticket_id (t_sellerId t) buyer_id "open" PNone
                        created updated in
        modify (set_negos (fun l => (l ++ [nego])%list)) ;;;
        ret (NegotiationBody nego, 201)
  end.

Definition questions_prompt (category : string) : string :=
  nl +:+ "    Generate exactly 10 seller questions for a " +:+ category
     +:+ " ticket listing." +:+ nl
     +:+ "    Respond ONLY in valid JSON like this:" +:+ nl
     +:+ "    [" +:+ nl
     +:+ "      {" +:+ dquote +:+ "id" +:+ dquote +:+ ": 1, "
     +:+ dquote +:+ "question" +:+ dquote +:+ ": "
     +:+ dquote +:+ "What is the departure city?" +:+ dquote +:+ "}," +:+ nl
     +:+ "      {" +:+ dquote +:+ "id" +:+ dquote +:+ ": 2, "
     +:+ dquote +:+ "question" +:+ dquote +:+ ": "
     +:+ dquote +:+ "What is the destination city?" +:+ dquote +:+ "}" +:+ nl
     +:+ "    ]" +:+ nl
     +:+ "    ".

(** [subprocess.run(["ollama", "run", "llama3", prompt], ...)] and
    [result.stdout.strip()]. *)
Definition run_ollama_cli (prompt : string) : M string :=
  fun w => (Returned (cli_output (steps w) prompt), tick w).

(** [category] is the query argument, [None] when it is not given. *)
Definition generate_questions (category : option string) : M Response :=
  load_name "request" ;;;
  let category := default "general" category in
  let prompt := questions_prompt category in
  load_name "subprocess" ;;;
  output <- run_ollama_cli prompt ;;
  let json_str :=
    py_slice output (py_find "["%char output) (py_rfind "]"%char output + 1) in
  load_name "json" ;;;
  let questions :=
    if json_loads_ok json_str then ParsedJson json_str
    else FailedToGenerate in
  load_name "jsonify" ;;;
  ret (QuestionsBody questions, 200).

(** *** Socket.IO *)

Definition on_connect (sid : string) : M unit :=
  emit "system" (Text "Connected to Swapit mediator.") sid.

(** The body is a single [print]. *)
Definition on_disconnect (sid : string) : M unit :=
  ret tt.

Definition join_as_seller (sid : string) (data : JoinSellerData) : M unit :=
  let negotiation_id := js_negotiationId data in
  let seller_id := js_sellerId data in
  nego <- gets (fun w => find_nego negotiation_id (negos w)) ;;
  match nego with
  | None => emit "error" (Text "Negotiation not found or seller mismatch.") sid
  | Some n =>
      if negb (ident_eqb (n_sellerId n) seller_id) then
        emit "error" (Text "Negotiation not found or seller mismatch.") sid
      else
        join_room (room_name negotiation_id) sid ;;;
        bind_session negotiation_id "seller_sid" sid ;;;
        emit "system" (Text "Seller joined negotiation.") sid
  end.

Definition join_as_buyer (sid : string) (data : JoinBuyerData) : M unit :=
  let negotiation_id := jb_negotiationId data in
  let buyer_id := jb_buyerId data in
  nego <- gets (fun w => find_nego negotiation_id (negos w)) ;;
  match nego with
  | None => emit "error" (Text "Negotiation not found or buyer mismatch.") sid
  | Some n =>
      if negb (ident_eqb (n_buyerId n) buyer_id) then
        emit "error" (Text "Negotiation not found or buyer mismatch.") sid
      else
        join_room (room_name negotiation_id) sid ;;;
        bind_session negotiation_id "buyer_sid" sid ;;;
        emit "system" (Text "Buyer joined negotiation.") sid
  end.

(** [if sid: socketio.emit(name, {"message": text}, to=sid)], where
    [sid] came out of [dict.get]: [None] and the empty string are
    both falsy. *)
Definition route (name text : string) (sid : option string) : M unit :=
  match sid with
  | None => ret tt
  | Some s =>
      if bool_decide (s = "") then ret tt
      else emit name (MessageDict text) s
  end.

(** [tickets.find_one(...) or {}], read through [.get]. *)
Definition ticket_askPrice (t : option Ticket) : pyval :=
  match t with
  | Some t => t_askPrice t
  | None => PNone
  end.

Definition ticket_details (t : option Ticket) : gmap string pyval :=
  match t with
  | Some t => t_details t
  | None => ∅
  end.

Definition buyer_prompt (ticket : option Ticket) (text : string)
    (budget : pyval) : string :=
  nl +:+ "You are Swapit's AI mediator. Summarize buyer intent and propose a next step for the SELLER." +:+ nl
     +:+ "Ticket details: " +:+ json_dumps (ticket_details ticket) +:+ nl
     +:+ "Seller ask price: " +:+ py_str (ticket_askPrice ticket) +:+ nl
     +:+ "Buyer message: " +:+ dquote +:+ text +:+ dquote +:+ nl
     +:+ "Buyer budget: " +:+ py_str budget +:+ nl.

Definition seller_prompt (ticket : option Ticket) (text : string)
    (min_accept : pyval) : string :=
  nl +:+ "You are Swapit's AI mediator. Convert SELLER response into a buyer-facing message." +:+ nl
     +:+ "Ticket details: " +:+ json_dumps (ticket_details ticket) +:+ nl
     +:+ "Seller says: " +:+ dquote +:+ text +:+ dquote +:+ nl
     +:+ "Seller minimum acceptable: " +:+ py_str min_accept +:+ nl.

Definition buyer_to_agent (sid : string) (data : BuyerMsgData) : M unit :=
  let negotiation_id := bm_negotiationId data in
  let buyer_id := bm_buyerId data in
  let text := default "" (bm_message data) in
  let budget := bm_budget data in
  nego <- gets (fun w => find_nego negotiation_id (negos w)) ;;
  match nego with
  | None => emit "error" (Text "Negotiation not found or buyer mismatch.") sid
  | Some n =>
      if negb (ident_eqb (n_buyerId n) buyer_id) then
        emit "error" (Text "Negotiation not found or buyer mismatch.") sid
      else
        store_message negotiation_id "buyer" text ;;;
        ticket <- gets (fun w => find_ticket (n_ticketId n) (tickets w)) ;;
        let prompt := buyer_prompt ticket text budget in
        agent_to_seller <- ask_ollama prompt ;;
        store_message negotiation_id "agent" ("(to seller) " +:+ agent_to_seller) ;;;
        seller_sid <- gets (resolve negotiation_id "seller_sid") ;;
        route "agent_to_seller" agent_to_seller seller_sid ;;;
        emit "agent_ack" (MessageDict "Noted. I’m checking with the seller now.") sid
  end.

Definition seller_to_agent (sid : string) (data : SellerMsgData) : M unit :=
  let negotiation_id := sm_negotiationId data in
  let seller_id := sm_sellerId data in
  let text := default "" (sm_message data) in
  let min_accept := sm_minAcceptable data in
  nego <- gets (fun w => find_nego negotiation_id (negos w)) ;;
  match nego with
  | None => emit "error" (Text "Negotiation not found or seller mismatch.") sid
  | Some n =>
      if negb (ident_eqb (n_sellerId n) seller_id) then
        emit "error" (Text "Negotiation not found or seller mismatch.") sid
      else
        store_message negotiation_id "seller" text ;;;
        ticket <- gets (fun w => find_ticket (n_ticketId n) (tickets w)) ;;
        let prompt := seller_prompt ticket text min_accept in
        agent_to_buyer <- ask_ollama prompt ;;
        store_message negotiation_id "agent" ("(to buyer) " +:+ agent_to_buyer) ;;;
        buyer_sid <- gets (resolve negotiation_id "buyer_sid") ;;
        route "agent_to_buyer" agent_to_buyer buyer_sid ;;;
        emit "agent_ack" (MessageDict "Thanks. I’m relaying this to the buyer.") sid
  end.

(** *** Dispatch of inbound events *)

(** The two party-message events and the two join events, with the
    handler Socket.IO runs for each. *)
Inductive party_msg : Type :=
  | BuyerToAgent (data : BuyerMsgData)
  | SellerToAgent (data : SellerMsgData).

Inductive join_msg : Type :=
  | JoinAsSeller (data : JoinSellerData)
  | JoinAsBuyer (data : JoinBuyerData).

Definition submit (sid : string) (pm : party_msg) : M unit :=
  match pm with
  | BuyerToAgent data => buyer_to_agent sid data
  | SellerToAgent data => seller_to_agent sid data
  end.

Definition join (sid : string) (jm : join_msg) : M unit :=
  match jm with
  | JoinAsSeller data => join_as_seller sid data
  | JoinAsBuyer data => join_as_buyer sid data
  end.

(** *** What each event names, read off its handler *)

Definition pm_negotiationId (pm : party_msg) : string :=
  match pm with
  | BuyerToAgent data => bm_negotiationId data
  | SellerToAgent data => sm_negotiationId data
  end.

Definition pm_claimed (pm : party_msg) : ident :=
  match pm with
  | BuyerToAgent data => bm_buyerId data
  | SellerToAgent data => sm_sellerId data
  end.

Definition pm_recorded (pm : party_msg) (n : Negotiation) : ident :=
  match pm with
  | BuyerToAgent _ => n_buyerId n
  | SellerToAgent _ => n_sellerId n
  end.

Definition pm_role (pm : party_msg) : string :=
  match pm with
  | BuyerToAgent _ => "buyer"
  | SellerToAgent _ => "seller"
  end.

Definition pm_text (pm : party_msg) : string :=
  match pm with
  | BuyerToAgent data => default "" (bm_message data)
  | SellerToAgent data => default "" (sm_message data)
  end.

Definition pm_prompt (pm : party_msg) (ticket : option Ticket) : string :=
  match pm with
  | BuyerToAgent data =>
      buyer_prompt ticket (default "" (bm_message data)) (bm_budget data)
  | SellerToAgent data =>
      seller_prompt ticket (default "" (sm_message data)) (sm_minAcceptable data)
  end.

Inductive direction : Type := ToSeller | ToBuyer.

Definition pm_direction (pm : party_msg) : direction :=
  match pm with
  | BuyerToAgent _ => ToSeller
  | SellerToAgent _ => ToBuyer
  end.

Definition direction_prefix (d : direction) : string :=
  match d with
  | ToSeller => "(to seller) "
  | ToBuyer => "(to buyer) "
  end.

Definition delivery_event (d : direction) : string :=
  match d with
  | ToSeller => "agent_to_seller"
  | ToBuyer => "agent_to_buyer"
  end.

Definition slot_key (d : direction) : string :=
  match d with
  | ToSeller => "seller_sid"
  | ToBuyer => "buyer_sid"
  end.

Definition pm_error (pm : party_msg) : string :=
  match pm with
  | BuyerToAgent _ => "Negotiation not found or buyer mismatch."
  | SellerToAgent _ => "Negotiation not found or seller mismatch."
  end.

Definition pm_ack (pm : party_msg) : string :=
  match pm with
  | BuyerToAgent _ => "Noted. I’m checking with the seller now."
  | SellerToAgent _ => "Thanks. I’m relaying this to the buyer."
  end.

(** The text the mediator stores and routes for [pm] in [w]: the
    collaborator is asked one step after the raw message is stored. *)
Definition pm_reply (pm : party_msg) (n : Negotiation) (w : World) : string :=
  match ollama (S (steps w))
               (pm_prompt pm (find_ticket (n_ticketId n) (tickets w))) with
  | Some r => r
  | None => fallback_text
  end.

Definition jm_negotiationId (jm : join_msg) : string :=
  match jm with
  | JoinAsSeller data => js_negotiationId data
  | JoinAsBuyer data => jb_negotiationId data
  end.

Definition jm_claimed (jm : join_msg) : ident :=
  match jm with
  | JoinAsSeller data => js_sellerId data
  | JoinAsBuyer data => jb_buyerId data
  end.

Definition jm_recorded (jm : join_msg) (n : Negotiation) : ident :=
  match jm with
  | JoinAsSeller _ => n_sellerId n
  | JoinAsBuyer _ => n_buyerId n
  end.

(** The slot of [session_index] a join writes. *)
Definition jm_key (jm : join_msg) : string :=
  match jm with
  | JoinAsSeller _ => "seller_sid"
  | JoinAsBuyer _ => "buyer_sid"
  end.

Definition jm_error (jm : join_msg) : string :=
  match jm with
  | JoinAsSeller _ => "Negotiation not found or seller mismatch."
  | JoinAsBuyer _ => "Negotiation not found or buyer mismatch."
  end.

Definition jm_notice (jm : join_msg) : string :=
  match jm with
  | JoinAsSeller _ => "Seller joined negotiation."
  | JoinAsBuyer _ => "Buyer joined negotiation."
  end.

(** The validation both kinds of handler start with passes. *)
Definition pm_valid (pm : party_msg) (w : World) : Prop :=
  ∃ n, find_nego (pm_negotiationId pm) (negos w) = Some n
       ∧ pm_recorded pm n = pm_claimed pm.

Definition jm_valid (jm : join_msg) (w : World) : Prop :=
  ∃ n, find_nego (jm_negotiationId jm) (negos w) = Some n
       ∧ jm_recorded jm n = jm_claimed jm.

(** What a run of [c] from [w] appended to the transcript and to the
    outgoing events. *)
Definition stored {A} (c : M A) (w : World) : list Message :=
  drop (length (messages w)) (messages (exec c w)).

Definition emitted {A} (c : M A) (w : World) : list Event :=
  drop (length (outbox w)) (outbox (exec c w)).

End Handlers.

(** What [route] emits. *)
Definition deliveries (name text : string) (sid : option string) : list Event :=
  match sid with
  | None => []
  | Some s =>
      if bool_decide (s = "") then []
      else [mkEvent name (MessageDict text) s]
  end.

(** ** A concrete deployment

    One ticket with ask price 500, an open negotiation [N1] between
    seller [S1] and buyer [B1] over it, and a second negotiation [N2]
    of the same parties whose status was set to [closed]. *)

Definition ticket1 : Ticket :=
  mkTicket "T1" (Some "S1") (PStr "bus") {[ "price" := PInt 500 ]}
           (PInt 500) "available" 1700000000.

Definition ticket_sold : Ticket :=
  mkTicket "T2" (Some "S1") (PStr "bus") ∅ PNone "sold" 1700000001.

Definition nego1 : Negotiation :=
  mkNegotiation "N1" "T1" (Some "S1") (Some "B1") "open" PNone
                1700000100 1700000100.

Definition nego_closed : Negotiation :=
  mkNegotiation "N2" "T1" (Some "S1") (Some "B1") "closed" (PInt 450)
                1700000100 1700000150.

Definition world0 : World :=
  mkWorld [ticket1; ticket_sold] [nego1; nego_closed] [] ∅ ∅ [] 0.

Definition clock0 (i : nat) : Z := 1700000200 + Z.of_nat i.
Definition uuid0 (i : nat) : string := "uuid-" +:+ pretty i.
Definition ollama_down (i : nat) (prompt : string) : option string := None.
Definition ollama_up (i : nat) (prompt : string) : option string :=
  Some "Proposal: settle at 430.".
Definition json_dumps0 (d : gmap string pyval) : string :=
  "{" +:+ dquote +:+ "price" +:+ dquote +:+ ": 500}".

Definition buyer_msg1 : BuyerMsgData :=
  mkBuyerMsgData "N1" (Some "B1") (Some "Can you do 400?") (PInt 420).

Definition seller_msg1 : SellerMsgData :=
  mkSellerMsgData "N1" (Some "S1") (Some "450 is my floor.") (PInt 450).

Definition buyer_msg_closed : BuyerMsgData :=
  mkBuyerMsgData "N2" (Some "B1") (Some "Still there?") PNone.

Definition buyer_msg_wrong : BuyerMsgData :=
  mkBuyerMsgData "N1" (Some "B9") (Some "Can you do 400?") (PInt 420).

Definition join_seller1 : JoinSellerData := mkJoinSellerData "N1" (Some "S1").
Definition join_seller_wrong : JoinSellerData := mkJoinSellerData "N1" (Some "S9").

(** * The rest of the module

    What follows models the code around the handlers above: the ticket
    listing, the file name handling of the OCR upload, and the server
    as a whole, taking one request after another. *)

From Stdlib Require Sorted.
From stdpp Require sorting.

#[global] Instance pyval_eq_dec : EqDecision pyval.
Proof. solve_decision. Defined.

(** ** Ticket listing *)

(** [list_tickets]: the query is [{"category": category}] when the
    [category] argument is truthy and [{}] otherwise, so the query is
    modelled by the category it filters on, if any.  Returns the list
    handed to [jsonify]. *)
Definition list_tickets (category : option string) : M (list Ticket) :=
  let query :=
    match category with
    | Some c => if bool_decide (c = "") then None else Some c
    | None => None
    end in
  found <- gets (fun w =>
    match query with
    | Some c => filter (fun t => t_category t = PStr c) (tickets w)
    | None => tickets w
    end) ;;
  ret found.

(** ** The file name of an OCR upload *)




Section Upload.

(** [str.lower]. *)
Variable lower : string → string.


End Upload.

(** ** The server, one request after another *)

(** The requests the modelled routes and events take, each with the
    connection it arrives on where there is one. *)
Inductive request : Type :=
  | UploadTicket (data : UploadTicketReq)
  | ListTickets (category : option string)
  | StartNegotiation (data : StartNegotiationReq)
  | GenerateQuestions (category : option string)
  | Connect (sid : string)
  | Disconnect (sid : string)
  | Join (sid : string) (jm : join_msg)
  | Submit (sid : string) (pm : party_msg).

Section Server.

Variable clock : nat → Z.
Variable uuid4 : nat → string.
Variable ollama : nat → string → option string.
Variable json_dumps : gmap string pyval → string.
Variable cli_output : nat → string → string.
Variable json_loads_ok : string → bool.

(** The world after the handler of one request has run (to its return
    or to the exception it raises). *)
Definition step (r : request) (w : World) : World :=
  match r with
  | UploadTicket data => exec (upload_ticket clock uuid4 data) w
  | ListTickets category => exec (list_tickets category) w
  | StartNegotiation data => exec (start_negotiation clock uuid4 data) w
  | GenerateQuestions category =>
      exec (generate_questions cli_output json_loads_ok category) w
  | Connect sid => exec (on_connect sid) w
  | Disconnect sid => exec (on_disconnect sid) w
  | Join sid jm => exec (join sid jm) w
  | Submit sid pm => exec (submit clock ollama json_dumps sid pm) w
  end.

Fixpoint run (rs : list request) (w : World) : World :=
  match rs with
  | [] => w
  | r :: rs' => run rs' (step r w)
  end.

End Server.

(** ** What the collections hold *)

(** Every negotiation is open and names a ticket of the collection
    whose seller is the negotiation's seller. *)
Definition negos_wellformed (w : World) : Prop :=
  ∀ n, n ∈ negos w →
    n_status n = "open"
    ∧ ∃ t, find_ticket (n_ticketId n) (tickets w) = Some t
           ∧ t_sellerId t = n_sellerId n.

(** Every transcript entry names a negotiation of the collection and
    one of the three roles the handlers write. *)
Definition transcript_wellformed (w : World) : Prop :=
  ∀ m, m ∈ messages w →
    is_Some (find_nego (m_negotiationId m) (negos w))
    ∧ m_role m ∈ ["buyer"; "seller"; "agent"].

(** Every handle [session_index] holds sits in one of the two slots of
    a negotiation of the collection. *)
Definition bindings_wellformed (w : World) : Prop :=
  ∀ nid key sid, resolve nid key w = Some sid →
    (key = "seller_sid" ∨ key = "buyer_sid")
    ∧ is_Some (find_nego nid (negos w)).

(** ** A session from an empty database

    A seller uploads a ticket, a buyer starts a negotiation over it,
    both join, and each writes once. *)

Definition world_empty : World := mkWorld [] [] [] ∅ ∅ [] 0.

Definition upload_req1 : UploadTicketReq :=
  mkUploadTicketReq (Some "S1") (PStr "bus") (Some {[ "price" := PInt 500 ]}).

Definition start_req1 : StartNegotiationReq :=
  mkStartNegotiationReq "uuid-0" (Some "B1").

Definition session1 : list request :=
  [ UploadTicket upload_req1;
    StartNegotiation start_req1;
    Connect "sidB";
    Join "sidB" (JoinAsBuyer (mkJoinBuyerData "uuid-2" (Some "B1")));
    Submit "sidB" (BuyerToAgent
      (mkBuyerMsgData "uuid-2" (Some "B1") (Some "Can you do 400?") (PInt 420)));
    Join "sidS" (JoinAsSeller (mkJoinSellerData "uuid-2" (Some "S1")));
    Submit "sidS" (SellerToAgent
      (mkSellerMsgData "uuid-2" (Some "S1") (Some "450 is my floor.") (PInt 450)));
    Disconnect "sidS";
    ListTickets (Some "bus") ].


Definition cli_output0 (i : nat) (prompt : string) : string := "[]".
Definition json_loads_ok0 (json_str : string) : bool := true.

(** [world0] after the seller of [N1] has joined from [sidS] and its
    buyer from [sidB]. *)
Definition world_joined : World :=
  exec (join "sidB" (JoinAsBuyer (mkJoinBuyerData "N1" (Some "B1"))))
       (exec (join "sidS" (JoinAsSeller join_seller1)) world0).

(** Two more buyers start negotiations over [T1], and the buyer of
    [N1] writes. *)
Definition session2 : list request :=
  [ StartNegotiation (mkStartNegotiationReq "T1" (Some "B2"));
    StartNegotiation (mkStartNegotiationReq "T1" (Some "B3"));
    Join "sidB" (JoinAsBuyer (mkJoinBuyerData "N1" (Some "B1")));
    Submit "sidB" (BuyerToAgent buyer_msg1);
    Disconnect "sidB" ].

(** The transcript's timestamps are readings of the clock taken at
    increasing steps, all before the current one. *)
Definition stamped (clock : nat → Z) (w : World) : Prop :=
  ∃ idx : list nat,
    m_ts <$> messages w = clock <$> idx
    ∧ Sorted.StronglySorted lt idx
    ∧ Forall (fun i => (i < steps w)%nat) idx.

(** * Properties *)

Section Properties.

Variable clock : nat → Z.
Variable uuid4 : nat → string.
Variable ollama : nat → string → option string.
Variable json_dumps : gmap string pyval → string.
Variable cli_output : nat → string → string.
Variable json_loads_ok : string → bool.

(** ** How the handlers run *)

Lemma route_run (name text : string) (sid : option string) (w : World) :
  route name text sid w
  = (Returned tt, set_outbox (fun l => (l ++ deliveries name text sid)%list) w).
Proof.
  destruct w as [ts ns ms idx rs ob st].
  destruct sid as [s|]; simpl.
  - case_bool_decide; [|reflexivity].
    unfold ret, set_outbox; simpl. by rewrite app_nil_r.
  - unfold ret, set_outbox; simpl. by rewrite app_nil_r.
Qed.

(** A party message that fails validation: one [error] event to the
    sender, nothing else. *)
Lemma submit_rejected (sid : string) (pm : party_msg) (w : World) :
  (find_nego (pm_negotiationId pm) (negos w) = None
   ∨ ∃ n, find_nego (pm_negotiationId pm) (negos w) = Some n
          ∧ pm_recorded pm n ≠ pm_claimed pm) →
  submit clock ollama json_dumps sid pm w
  = (Returned tt,
     set_outbox (fun l => (l ++ [mkEvent "error" (Text (pm_error pm)) sid])%list) w).
Proof.
  intros [Hnone | (n & Hn & Hne)]; destruct pm as [d | d]; simpl in *;
    unfold buyer_to_agent, seller_to_agent, bind, gets; simpl.
  1, 2: rewrite Hnone; reflexivity.
  all: rewrite Hn; unfold ident_eqb;
    rewrite bool_decide_eq_false_2 by done; reflexivity.
Qed.

(** A party message that passes validation: both transcript entries,
    the routed event if the counterparty's slot holds a handle, and the
    acknowledgement. *)
Lemma submit_accepted (sid : string) (pm : party_msg) (w : World)
    (n : Negotiation) :
  find_nego (pm_negotiationId pm) (negos w) = Some n →
  pm_recorded pm n = pm_claimed pm →
  submit clock ollama json_dumps sid pm w
  = (Returned tt,
     let nid := pm_negotiationId pm in
     let reply := pm_reply ollama json_dumps pm n w in
     let d := pm_direction pm in
     mkWorld (tickets w) (negos w)
       ((messages w
         ++ [mkMessage nid (pm_role pm) (pm_text pm) (clock (steps w))])
         ++ [mkMessage nid "agent" (direction_prefix d +:+ reply)
                       (clock (S (S (steps w))))])%list
       (session_index w) (rooms w)
       ((outbox w
         ++ deliveries (delivery_event d) reply (resolve nid (slot_key d) w))
         ++ [mkEvent "agent_ack" (MessageDict (pm_ack pm)) sid])%list
       (S (S (S (steps w))))).
Proof.
  intros Hn Hid.
  destruct pm as [d | d]; simpl in *;
    unfold buyer_to_agent, seller_to_agent, bind, gets; simpl;
    rewrite Hn; unfold ident_eqb;
    rewrite bool_decide_eq_true_2 by done; simpl;
    rewrite route_run; reflexivity.
Qed.

Lemma stored_app {A} (c : M A) (w : World) (new : list Message) :
  messages (exec c w) = (messages w ++ new)%list → stored c w = new.
Proof. intros H. unfold stored. rewrite H. apply drop_app_length. Qed.

Lemma emitted_app {A} (c : M A) (w : World) (new : list Event) :
  outbox (exec c w) = (outbox w ++ new)%list → emitted c w = new.
Proof. intros H. unfold emitted. rewrite H. apply drop_app_length. Qed.

Lemma stored_accepted (sid : string) (pm : party_msg) (w : World)
    (n : Negotiation) :
  find_nego (pm_negotiationId pm) (negos w) = Some n →
  pm_recorded pm n = pm_claimed pm →
  stored (submit clock ollama json_dumps sid pm) w
  = [ mkMessage (pm_negotiationId pm) (pm_role pm) (pm_text pm)
                (clock (steps w));
      mkMessage (pm_negotiationId pm) "agent"
                (direction_prefix (pm_direction pm)
                 +:+ pm_reply ollama json_dumps pm n w)
                (clock (S (S (steps w)))) ].
Proof.
  intros Hn Hid. apply stored_app. unfold exec.
  rewrite (submit_accepted sid pm w n Hn Hid). simpl.
  by rewrite <- app_assoc.
Qed.

Lemma emitted_accepted (sid : string) (pm : party_msg) (w : World)
    (n : Negotiation) :
  find_nego (pm_negotiationId pm) (negos w) = Some n →
  pm_recorded pm n = pm_claimed pm →
  emitted (submit clock ollama json_dumps sid pm) w
  = (deliveries (delivery_event (pm_direction pm))
                (pm_reply ollama json_dumps pm n w)
                (resolve (pm_negotiationId pm) (slot_key (pm_direction pm)) w)
     ++ [mkEvent "agent_ack" (MessageDict (pm_ack pm)) sid])%list.
Proof.
  intros Hn Hid. apply emitted_app. unfold exec.
  rewrite (submit_accepted sid pm w n Hn Hid). simpl.
  by rewrite <- app_assoc.
Qed.

(** A join that fails validation: one [error] event to the sender. *)
Lemma join_rejected (sid : string) (jm : join_msg) (w : World) :
  (find_nego (jm_negotiationId jm) (negos w) = None
   ∨ ∃ n, find_nego (jm_negotiationId jm) (negos w) = Some n
          ∧ jm_recorded jm n ≠ jm_claimed jm) →
  join sid jm w
  = (Returned tt,
     set_outbox (fun l => (l ++ [mkEvent "error" (Text (jm_error jm)) sid])%list) w).
Proof.
  intros [Hnone | (n & Hn & Hne)]; destruct jm as [d | d]; simpl in *;
    unfold join_as_seller, join_as_buyer, bind, gets; simpl.
  1, 2: rewrite Hnone; reflexivity.
  all: rewrite Hn; unfold ident_eqb;
    rewrite bool_decide_eq_false_2 by done; reflexivity.
Qed.

(** A join that passes: room membership, the slot overwritten, and the
    notice to the joining connection. *)
Lemma join_accepted (sid : string) (jm : join_msg) (w : World)
    (n : Negotiation) :
  find_nego (jm_negotiationId jm) (negos w) = Some n →
  jm_recorded jm n = jm_claimed jm →
  join sid jm w
  = (Returned tt,
     let nid := jm_negotiationId jm in
     mkWorld (tickets w) (negos w) (messages w)
       (<[nid := <[jm_key jm := sid]> (default ∅ (session_index w !! nid))]>
          (session_index w))
       ({[ (room_name nid, sid) ]} ∪ rooms w)
       (outbox w ++ [mkEvent "system" (Text (jm_notice jm)) sid])%list
       (steps w)).
Proof.
  intros Hn Hid.
  destruct jm as [d | d]; simpl in *;
    unfold join_as_seller, join_as_buyer, bind, gets; simpl;
    rewrite Hn; unfold ident_eqb;
    rewrite bool_decide_eq_true_2 by done; reflexivity.
Qed.

Lemma join_keeps_negos (sid : string) (jm : join_msg) (w : World) :
  negos (exec (join sid jm) w) = negos w.
Proof.
  unfold exec.
  destruct (find_nego (jm_negotiationId jm) (negos w)) as [n|] eqn:Hn.
  - destruct (decide (jm_recorded jm n = jm_claimed jm)) as [Hid | Hne].
    + by rewrite (join_accepted sid jm w n Hn Hid).
    + rewrite join_rejected; [done | right; eauto].
  - rewrite join_rejected; [done | by left].
Qed.

Lemma resolve_after_join (sid : string) (jm : join_msg) (w : World) :
  jm_valid jm w →
  resolve (jm_negotiationId jm) (jm_key jm) (exec (join sid jm) w) = Some sid.
Proof.
  intros (n & Hn & Hid). unfold exec, resolve.
  rewrite (join_accepted sid jm w n Hn Hid). simpl.
  rewrite lookup_insert_eq. simpl. apply lookup_insert_eq.
Qed.

Lemma stored_rejected (sid : string) (pm : party_msg) (w : World) :
  (find_nego (pm_negotiationId pm) (negos w) = None
   ∨ ∃ n, find_nego (pm_negotiationId pm) (negos w) = Some n
          ∧ pm_recorded pm n ≠ pm_claimed pm) →
  stored (submit clock ollama json_dumps sid pm) w = [].
Proof.
  intros H. apply stored_app. unfold exec.
  rewrite (submit_rejected sid pm w H). simpl. by rewrite app_nil_r.
Qed.

Lemma emitted_rejected (sid : string) (pm : party_msg) (w : World) :
  (find_nego (pm_negotiationId pm) (negos w) = None
   ∨ ∃ n, find_nego (pm_negotiationId pm) (negos w) = Some n
          ∧ pm_recorded pm n ≠ pm_claimed pm) →
  emitted (submit clock ollama json_dumps sid pm) w
  = [mkEvent "error" (Text (pm_error pm)) sid].
Proof.
  intros H. apply emitted_app. unfold exec.
  by rewrite (submit_rejected sid pm w H).
Qed.

Lemma delivery_event_not_error (d : direction) : "error" ≠ delivery_event d.
Proof. destruct d; discriminate. Qed.

Lemma delivery_event_not_ack (d : direction) : "agent_ack" ≠ delivery_event d.
Proof. destruct d; discriminate. Qed.

(** Every routed event of a party message goes to the handle its
    counterparty slot holds. *)
Lemma routed_to_resolved (sid : string) (pm : party_msg) (w : World)
    (e : Event) :
  e ∈ emitted (submit clock ollama json_dumps sid pm) w →
  ev_name e = delivery_event (pm_direction pm) →
  resolve (pm_negotiationId pm) (slot_key (pm_direction pm)) w = Some (ev_to e).
Proof.
  intros He Hname.
  destruct (find_nego (pm_negotiationId pm) (negos w)) as [n|] eqn:Hn.
  - destruct (decide (pm_recorded pm n = pm_claimed pm)) as [Hid | Hne].
    + rewrite (emitted_accepted sid pm w n Hn Hid) in He.
      apply elem_of_app in He as [He | He].
      * destruct (resolve _ _ w) as [s|]; simpl in He; [|by inversion He].
        case_bool_decide; [by inversion He|].
        apply list_elem_of_singleton in He. by subst e.
      * apply list_elem_of_singleton in He. subst e. simpl in Hname.
        by destruct (delivery_event_not_ack (pm_direction pm)).
    + rewrite emitted_rejected in He by (right; eauto).
      apply list_elem_of_singleton in He. subst e. simpl in Hname.
      by destruct (delivery_event_not_error (pm_direction pm)).
  - rewrite emitted_rejected in He by (by left).
    apply list_elem_of_singleton in He. subst e. simpl in Hname.
    by destruct (delivery_event_not_error (pm_direction pm)).
Qed.

(** ** Party messages *)

(** C1, as amended.  A party message to a negotiation that exists and
    whose status is not ["open"] is not turned away for its status:
    the handlers never read [status].  When the claimed party
    identifier matches the recorded one the message is accepted, both
    transcript entries are written and the sender is acknowledged;
    when it does not match, the only effect is the [error] event to
    the sender.  Existence and identity are checked before any side
    effect. *)
Theorem party_message_status_not_consulted (sid : string) (pm : party_msg)
    (w : World) (n : Negotiation) :
  find_nego (pm_negotiationId pm) (negos w) = Some n →
  n_status n ≠ "open" →
  (pm_recorded pm n = pm_claimed pm →
     stored (submit clock ollama json_dumps sid pm) w
     = [ mkMessage (pm_negotiationId pm) (pm_role pm) (pm_text pm)
                   (clock (steps w));
         mkMessage (pm_negotiationId pm) "agent"
                   (direction_prefix (pm_direction pm)
                    +:+ pm_reply ollama json_dumps pm n w)
                   (clock (S (S (steps w)))) ]
     ∧ mkEvent "agent_ack" (MessageDict (pm_ack pm)) sid
       ∈ emitted (submit clock ollama json_dumps sid pm) w
     ∧ ∀ e, e ∈ emitted (submit clock ollama json_dumps sid pm) w →
            ev_name e ≠ "error")
  ∧ (pm_recorded pm n ≠ pm_claimed pm →
     stored (submit clock ollama json_dumps sid pm) w = []
     ∧ emitted (submit clock ollama json_dumps sid pm) w
       = [mkEvent "error" (Text (pm_error pm)) sid]).
Proof.
  intros Hn _. split.
  - intros Hid. split; [by apply stored_accepted|].
    rewrite (emitted_accepted sid pm w n Hn Hid). split.
    + apply elem_of_app. right. apply list_elem_of_singleton. reflexivity.
    + intros e He Herr. apply elem_of_app in He as [He | He].
      * destruct (resolve _ _ w) as [s|]; simpl in He; [|by inversion He].
        case_bool_decide; [by inversion He|].
        apply list_elem_of_singleton in He. subst e. simpl in Herr.
        by destruct (delivery_event_not_error (pm_direction pm)).
      * apply list_elem_of_singleton in He. by subst e.
  - intros Hne. split.
    + apply stored_rejected. right. eauto.
    + apply emitted_rejected. right. eauto.
Qed.

(** C3.  Every accepted party message appends exactly two entries to
    the transcript: the raw message under the sender's role, then the
    mediator's message; when the collaborator call fails the
    mediator's text is the direction prefix followed by the fixed
    fallback string. *)
Theorem accepted_message_two_entries (sid : string) (pm : party_msg)
    (w : World) (n : Negotiation) :
  find_nego (pm_negotiationId pm) (negos w) = Some n →
  pm_recorded pm n = pm_claimed pm →
  ∃ raw mediator,
    messages (exec (submit clock ollama json_dumps sid pm) w)
    = (messages w ++ [raw; mediator])%list
    ∧ raw = mkMessage (pm_negotiationId pm) (pm_role pm) (pm_text pm)
                      (clock (steps w))
    ∧ m_negotiationId mediator = pm_negotiationId pm
    ∧ m_role mediator = "agent"
    ∧ m_text mediator
      = direction_prefix (pm_direction pm) +:+ pm_reply ollama json_dumps pm n w
    ∧ (ollama (S (steps w))
              (pm_prompt json_dumps pm (find_ticket (n_ticketId n) (tickets w)))
       = None →
       m_text mediator
       = direction_prefix (pm_direction pm)
         +:+ "Sorry, I could not process that request.").
Proof.
  intros Hn Hid. eexists _, _. split.
  - unfold exec. rewrite (submit_accepted sid pm w n Hn Hid). simpl.
    by rewrite <- app_assoc.
  - repeat split. simpl. intros Hfail. unfold pm_reply. by rewrite Hfail.
Qed.

(** C4.  A party message whose negotiation does not exist, or whose
    claimed party identifier differs from the recorded one, emits one
    [error] event to the sender and leaves the three collections as
    they were. *)
Theorem rejected_message_no_write (sid : string) (pm : party_msg) (w : World) :
  (find_nego (pm_negotiationId pm) (negos w) = None
   ∨ ∃ n, find_nego (pm_negotiationId pm) (negos w) = Some n
          ∧ pm_recorded pm n ≠ pm_claimed pm) →
  let w' := exec (submit clock ollama json_dumps sid pm) w in
  messages w' = messages w
  ∧ tickets w' = tickets w
  ∧ negos w' = negos w
  ∧ emitted (submit clock ollama json_dumps sid pm) w
    = [mkEvent "error" (Text (pm_error pm)) sid].
Proof.
  intros H. split_and!; [| | |by apply emitted_rejected];
    unfold exec; by rewrite (submit_rejected sid pm w H).
Qed.


(** C9, as amended.  Every message a party-message handler stores
    carries the negotiation identifier, one of the roles ["buyer"],
    ["seller"], ["agent"] and a timestamp read from the clock; the
    mediator's messages (role ["agent"]) carry their direction as the
    prefix of their text, ["(to seller) "] or ["(to buyer) "]. *)
Theorem stored_message_shape (sid : string) (pm : party_msg) (w : World)
    (m : Message) :
  m ∈ stored (submit clock ollama json_dumps sid pm) w →
  m_negotiationId m = pm_negotiationId pm
  ∧ m_role m ∈ ["buyer"; "seller"; "agent"]
  ∧ (∃ i, m_ts m = clock i)
  ∧ (m_role m = "agent" →
     ∃ reply, m_text m = direction_prefix (pm_direction pm) +:+ reply).
Proof.
  intros Hm.
  destruct (find_nego (pm_negotiationId pm) (negos w)) as [n|] eqn:Hn.
  - destruct (decide (pm_recorded pm n = pm_claimed pm)) as [Hid | Hne].
    + rewrite (stored_accepted sid pm w n Hn Hid) in Hm.
      apply elem_of_cons in Hm as [-> | Hm]; simpl.
      * split_and!; [done | | by eexists |].
        -- destruct pm; simpl; repeat constructor.
        -- destruct pm; discriminate.
      * apply list_elem_of_singleton in Hm. subst m. simpl.
        split_and!; [done | repeat constructor | by eexists | by eexists].
    + rewrite stored_rejected in Hm by (right; eauto). by inversion Hm.
  - rewrite stored_rejected in Hm by (by left). by inversion Hm.
Qed.

(** ** Session bindings *)

(** C5.  A join whose negotiation does not exist, or whose claimed
    party identifier differs from the recorded one for that role,
    emits one [error] event to the joining connection and leaves
    [session_index] (and the rooms) exactly as they were. *)
Theorem rejected_join_no_binding (sid : string) (jm : join_msg) (w : World) :
  (find_nego (jm_negotiationId jm) (negos w) = None
   ∨ ∃ n, find_nego (jm_negotiationId jm) (negos w) = Some n
          ∧ jm_recorded jm n ≠ jm_claimed jm) →
  session_index (exec (join sid jm) w) = session_index w
  ∧ rooms (exec (join sid jm) w) = rooms w
  ∧ outbox (exec (join sid jm) w)
    = (outbox w ++ [mkEvent "error" (Text (jm_error jm)) sid])%list.
Proof.
  intros H. unfold exec. by rewrite (join_rejected sid jm w H).
Qed.

(** C6.  A slot of [session_index] holds at most one handle, and a
    second successful join for the same negotiation and role replaces
    the first: afterwards the slot resolves to the second handle only,
    and, then and for as long as the slot is not written again, every
    event routed for that slot goes to the second handle, none to the
    first. *)
Theorem second_join_replaces_first (sid1 sid2 : string) (jm1 jm2 : join_msg)
    (w : World) :
  jm_valid jm1 w →
  jm_valid jm2 w →
  jm_negotiationId jm2 = jm_negotiationId jm1 →
  jm_key jm2 = jm_key jm1 →
  sid1 ≠ sid2 →
  let nid := jm_negotiationId jm1 in
  let key := jm_key jm1 in
  let w2 := exec (join sid2 jm2) (exec (join sid1 jm1) w) in
  resolve nid key (exec (join sid1 jm1) w) = Some sid1
  ∧ resolve nid key w2 = Some sid2
  ∧ (∀ h, resolve nid key w2 = Some h → h = sid2 ∧ h ≠ sid1)
  ∧ (∀ w' sender pm e,
       resolve nid key w' = resolve nid key w2 →
       pm_negotiationId pm = nid →
       slot_key (pm_direction pm) = key →
       e ∈ emitted (submit clock ollama json_dumps sender pm) w' →
       ev_name e = delivery_event (pm_direction pm) →
       ev_to e = sid2 ∧ ev_to e ≠ sid1).
Proof.
  intros Hv1 Hv2 Hnid Hkey Hsid nid key w2.
  assert (Hr2 : resolve nid key w2 = Some sid2).
  { subst nid key w2. rewrite <- Hnid, <- Hkey. apply resolve_after_join.
    destruct Hv2 as (n & Hn & Hid). exists n.
    by rewrite join_keeps_negos. }
  split_and!.
  - by apply resolve_after_join.
  - exact Hr2.
  - intros h Hh. rewrite Hr2 in Hh. injection Hh as <-. done.
  - intros w' sender pm e Hsame Hpn Hpk He Hname.
    pose proof (routed_to_resolved sender pm w' e He Hname) as Hr.
    rewrite Hpn, Hpk, Hsame, Hr2 in Hr. injection Hr as <-. done.
Qed.

(** C2, as amended.  The disconnect handler changes nothing: every
    binding of [session_index], whether it references the
    disconnecting handle or another one, is still there afterwards. *)
Theorem disconnect_keeps_bindings (sid : string) (w : World) :
  exec (on_disconnect sid) w = w
  ∧ ∀ nid key, resolve nid key (exec (on_disconnect sid) w) = resolve nid key w.
Proof. split; reflexivity. Qed.

(** ** REST *)

(** C8.  [start_negotiation] answers 404 when no ticket has the
    identifier, 400 when the ticket's status is not ["available"], and
    otherwise inserts and returns (201) a negotiation with status
    ["open"], the ticket's seller and the caller's buyer. *)
Theorem start_negotiation_outcome (data : StartNegotiationReq) (w : World) :
  (find_ticket (sn_ticketId data) (tickets w) = None →
     start_negotiation clock uuid4 data w
     = (Returned (ErrorBody "Ticket not found", 404), w))
  ∧ (∀ t, find_ticket (sn_ticketId data) (tickets w) = Some t →
          t_status t ≠ "available" →
          start_negotiation clock uuid4 data w
          = (Returned (ErrorBody "Ticket not available", 400), w))
  ∧ (∀ t, find_ticket (sn_ticketId data) (tickets w) = Some t →
          t_status t = "available" →
          ∃ nego,
            result (start_negotiation clock uuid4 data) w
            = Returned (NegotiationBody nego, 201)
            ∧ negos (exec (start_negotiation clock uuid4 data) w)
              = (negos w ++ [nego])%list
            ∧ n_status nego = "open"
            ∧ n_ticketId nego = sn_ticketId data
            ∧ n_sellerId nego = t_sellerId t
            ∧ n_buyerId nego = sn_buyerId data).
Proof.
  split_and!.
  - intros Hnone. unfold start_negotiation, bind, gets. simpl.
    by rewrite Hnone.
  - intros t Ht Hst. unfold start_negotiation, bind, gets. simpl.
    rewrite Ht. by rewrite bool_decide_eq_false_2.
  - intros t Ht Hst. eexists.
    unfold result, exec, start_negotiation, bind, gets. simpl.
    rewrite Ht. rewrite bool_decide_eq_true_2 by done. simpl.
    split_and!; reflexivity.
Qed.

(** C10.  [generate_questions] names [subprocess], which neither the
    module nor [builtins] binds: every call raises [NameError] before
    the model is ever run, and no question list is returned. *)
Theorem generate_questions_raises (category : option string) (w : World) :
  generate_questions cli_output json_loads_ok category w
  = (Raised (NameError "subprocess"), w)
  ∧ ∀ r, result (generate_questions cli_output json_loads_ok category) w
         ≠ Returned r.
Proof.
  assert (H : generate_questions cli_output json_loads_ok category w
              = (Raised (NameError "subprocess"), w)).
  { unfold generate_questions, bind.
    assert (Hreq : load_name "request" w = (Returned tt, w))
      by (vm_compute; reflexivity).
    assert (Hsub : load_name "subprocess" w
                   = (Raised (NameError "subprocess"), w))
      by (vm_compute; reflexivity).
    by rewrite Hreq, Hsub. }
  split; [exact H|]. intros r. unfold result. by rewrite H.
Qed.

End Properties.

(** * The properties on the concrete deployment *)

(** C1, as the claim states it, fails: [N2] is closed, yet the buyer's
    message to it is stored, mediated and acknowledged, and no error
    is emitted. *)
Lemma closed_negotiation_message_accepted :
  find_nego "N2" (negos world0) = Some nego_closed
  ∧ n_status nego_closed = "closed"
  ∧ stored (submit clock0 ollama_down json_dumps0 "sidB"
                   (BuyerToAgent buyer_msg_closed)) world0
    = [ mkMessage "N2" "buyer" "Still there?" 1700000200;
        mkMessage "N2" "agent"
                  "(to seller) Sorry, I could not process that request."
                  1700000202 ]
  ∧ emitted (submit clock0 ollama_down json_dumps0 "sidB"
                    (BuyerToAgent buyer_msg_closed)) world0
    = [ mkEvent "agent_ack"
                (MessageDict "Noted. I’m checking with the seller now.")
                "sidB" ].
Proof. repeat split; vm_compute; reflexivity. Qed.

(** The buyer writes to the closed negotiation [N2] while the collaborator
    is down. *)
Lemma party_message_status_not_consulted_witness :
  find_nego "N2" (negos world0) = Some nego_closed
  ∧ n_status nego_closed ≠ "open"
  ∧ stored (submit clock0 ollama_down json_dumps0 "sidB"
                   (BuyerToAgent buyer_msg_closed)) world0
    = [ mkMessage "N2" "buyer" "Still there?" 1700000200;
        mkMessage "N2" "agent"
                  "(to seller) Sorry, I could not process that request."
                  1700000202 ].
Proof.
  assert (H1 : find_nego "N2" (negos world0) = Some nego_closed)
    by reflexivity.
  assert (H2 : n_status nego_closed ≠ "open") by discriminate.
  split; [exact H1|]. split; [exact H2|].
  destruct (party_message_status_not_consulted clock0 ollama_down json_dumps0
              "sidB" (BuyerToAgent buyer_msg_closed) world0 nego_closed H1 H2)
    as [Haccepted _].
  exact (proj1 (Haccepted eq_refl)).
Defined.

(** The buyer writes to [N1] while the collaborator is down. *)
Lemma accepted_message_two_entries_witness :
  find_nego "N1" (negos world0) = Some nego1
  ∧ n_buyerId nego1 = bm_buyerId buyer_msg1
  ∧ ∃ raw mediator,
      messages (exec (submit clock0 ollama_down json_dumps0 "sidB"
                             (BuyerToAgent buyer_msg1)) world0)
      = [raw; mediator]
      ∧ raw = mkMessage "N1" "buyer" "Can you do 400?" 1700000200
      ∧ m_text mediator
        = "(to seller) Sorry, I could not process that request.".
Proof.
  assert (H1 : find_nego "N1" (negos world0) = Some nego1) by reflexivity.
  assert (H2 : n_buyerId nego1 = bm_buyerId buyer_msg1) by reflexivity.
  split; [exact H1|]. split; [exact H2|].
  destruct (accepted_message_two_entries clock0 ollama_down json_dumps0
              "sidB" (BuyerToAgent buyer_msg1) world0 nego1 H1 H2)
    as (raw & mediator & Hms & Hraw & _ & _ & _ & Hfail).
  exists raw, mediator. split; [exact Hms|]. split; [exact Hraw|].
  exact (Hfail eq_refl).
Defined.

(** [B9] claims to be the buyer of [N1]. *)
Lemma rejected_message_no_write_witness :
  (find_nego "N1" (negos world0) = None
   ∨ ∃ n, find_nego "N1" (negos world0) = Some n
          ∧ n_buyerId n ≠ bm_buyerId buyer_msg_wrong)
  ∧ messages (exec (submit clock0 ollama_up json_dumps0 "sidX"
                           (BuyerToAgent buyer_msg_wrong)) world0) = []
  ∧ emitted (submit clock0 ollama_up json_dumps0 "sidX"
                    (BuyerToAgent buyer_msg_wrong)) world0
    = [ mkEvent "error" (Text "Negotiation not found or buyer mismatch.")
                "sidX" ].
Proof.
  assert (H : find_nego "N1" (negos world0) = None
              ∨ ∃ n, find_nego "N1" (negos world0) = Some n
                     ∧ n_buyerId n ≠ bm_buyerId buyer_msg_wrong).
  { right. exists nego1. split; [reflexivity | discriminate]. }
  split; [exact H|].
  destruct (rejected_message_no_write clock0 ollama_up json_dumps0 "sidX"
              (BuyerToAgent buyer_msg_wrong) world0 H)
    as (Hms & _ & _ & Hev).
  split; [exact Hms | exact Hev].
Defined.

(** [S9] claims to be the seller of [N1]. *)
Lemma rejected_join_no_binding_witness :
  (find_nego "N1" (negos world0) = None
   ∨ ∃ n, find_nego "N1" (negos world0) = Some n
          ∧ n_sellerId n ≠ js_sellerId join_seller_wrong)
  ∧ session_index (exec (join "sidX" (JoinAsSeller join_seller_wrong)) world0)
    = ∅
  ∧ outbox (exec (join "sidX" (JoinAsSeller join_seller_wrong)) world0)
    = [ mkEvent "error" (Text "Negotiation not found or seller mismatch.")
                "sidX" ].
Proof.
  assert (H : find_nego "N1" (negos world0) = None
              ∨ ∃ n, find_nego "N1" (negos world0) = Some n
                     ∧ n_sellerId n ≠ js_sellerId join_seller_wrong).
  { right. exists nego1. split; [reflexivity | discriminate]. }
  split; [exact H|].
  destruct (rejected_join_no_binding "sidX" (JoinAsSeller join_seller_wrong)
              world0 H) as (Hidx & _ & Hev).
  split; [exact Hidx | exact Hev].
Defined.

(** The seller of [N1] joins from [sidS], then again from [sidS2]. *)
Lemma second_join_replaces_first_witness :
  jm_valid (JoinAsSeller join_seller1) world0
  ∧ "sidS" ≠ "sidS2"
  ∧ resolve "N1" "seller_sid"
            (exec (join "sidS" (JoinAsSeller join_seller1)) world0)
    = Some "sidS"
  ∧ resolve "N1" "seller_sid"
            (exec (join "sidS2" (JoinAsSeller join_seller1))
                  (exec (join "sidS" (JoinAsSeller join_seller1)) world0))
    = Some "sidS2".
Proof.
  assert (Hv : jm_valid (JoinAsSeller join_seller1) world0).
  { exists nego1. split; reflexivity. }
  assert (Hne : "sidS" ≠ "sidS2") by discriminate.
  split; [exact Hv|]. split; [exact Hne|].
  destruct (second_join_replaces_first clock0 ollama_up json_dumps0
              "sidS" "sidS2" (JoinAsSeller join_seller1)
              (JoinAsSeller join_seller1) world0 Hv Hv eq_refl eq_refl Hne)
    as (Hfirst & Hsecond & _).
  split; [exact Hfirst | exact Hsecond].
Defined.


(** An unknown ticket, the sold ticket [T2], and the available ticket
    [T1]. *)
Lemma start_negotiation_outcome_witness :
  start_negotiation clock0 uuid0 (mkStartNegotiationReq "T9" (Some "B1")) world0
  = (Returned (ErrorBody "Ticket not found", 404), world0)
  ∧ start_negotiation clock0 uuid0 (mkStartNegotiationReq "T2" (Some "B1")) world0
    = (Returned (ErrorBody "Ticket not available", 400), world0)
  ∧ ∃ nego,
      result (start_negotiation clock0 uuid0
                (mkStartNegotiationReq "T1" (Some "B2"))) world0
      = Returned (NegotiationBody nego, 201)
      ∧ n_status nego = "open"
      ∧ n_sellerId nego = Some "S1"
      ∧ n_buyerId nego = Some "B2".
Proof.
  split; [|split].
  - apply (start_negotiation_outcome clock0 uuid0
             (mkStartNegotiationReq "T9" (Some "B1")) world0).
    reflexivity.
  - apply (proj1 (proj2 (start_negotiation_outcome clock0 uuid0
             (mkStartNegotiationReq "T2" (Some "B1")) world0)) ticket_sold).
    + reflexivity.
    + discriminate.
  - destruct (proj2 (proj2 (start_negotiation_outcome clock0 uuid0
               (mkStartNegotiationReq "T1" (Some "B2")) world0)) ticket1
               eq_refl eq_refl)
      as (nego & Hres & _ & Hst & _ & Hsel & Hbuy).
    exists nego. repeat split; assumption.
Defined.

(** C9, as the claim states it, fails: the mediator's message for the
    seller and the one for the buyer agree on every field that is not
    the text.  The direction is in the text, and in no other field. *)
Lemma direction_is_not_a_field :
  ∃ to_seller to_buyer,
    last (stored (submit clock0 ollama_up json_dumps0 "sidB"
                         (BuyerToAgent buyer_msg1)) world0)
    = Some to_seller
    ∧ last (stored (submit clock0 ollama_up json_dumps0 "sidS"
                           (SellerToAgent seller_msg1)) world0)
      = Some to_buyer
    ∧ pm_direction (BuyerToAgent buyer_msg1)
      ≠ pm_direction (SellerToAgent seller_msg1)
    ∧ m_negotiationId to_seller = m_negotiationId to_buyer
    ∧ m_role to_seller = m_role to_buyer
    ∧ m_ts to_seller = m_ts to_buyer
    ∧ m_text to_seller = "(to seller) Proposal: settle at 430."
    ∧ m_text to_buyer = "(to buyer) Proposal: settle at 430.".
Proof.
  exists (mkMessage "N1" "agent" "(to seller) Proposal: settle at 430."
                    1700000202),
         (mkMessage "N1" "agent" "(to buyer) Proposal: settle at 430."
                    1700000202).
  split_and!; try (vm_compute; reflexivity). discriminate.
Qed.

(** The mediator message stored for the buyer's message to [N1]. *)
Lemma stored_message_shape_witness :
  mkMessage "N1" "agent" "(to seller) Proposal: settle at 430." 1700000202
  ∈ stored (submit clock0 ollama_up json_dumps0 "sidB"
                   (BuyerToAgent buyer_msg1)) world0
  ∧ ∃ reply, "(to seller) Proposal: settle at 430." = "(to seller) " +:+ reply.
Proof.
  assert (Hin : mkMessage "N1" "agent" "(to seller) Proposal: settle at 430."
                          1700000202
                ∈ stored (submit clock0 ollama_up json_dumps0 "sidB"
                                 (BuyerToAgent buyer_msg1)) world0).
  { vm_compute. right. left. }
  split; [exact Hin|].
  destruct (stored_message_shape clock0 ollama_up json_dumps0 "sidB"
              (BuyerToAgent buyer_msg1) world0 _ Hin)
    as (_ & _ & _ & Hprefix).
  exact (Hprefix eq_refl).
Defined.

(** C2, as the claim states it, fails: the seller's handle is still
    bound to its slot after that handle disconnects. *)
Lemma binding_survives_disconnect :
  resolve "N1" "seller_sid"
          (exec (join "sidS" (JoinAsSeller join_seller1)) world0)
  = Some "sidS"
  ∧ resolve "N1" "seller_sid"
            (exec (on_disconnect "sidS")
                  (exec (join "sidS" (JoinAsSeller join_seller1)) world0))
    = Some "sidS".
Proof. split; vm_compute; reflexivity. Qed.


(** * Further properties of the module *)

Section MoreProperties.

Variable clock : nat → Z.
Variable uuid4 : nat → string.
Variable ollama : nat → string → option string.
Variable json_dumps : gmap string pyval → string.
Variable cli_output : nat → string → string.
Variable json_loads_ok : string → bool.
Variable lower : string → string.

(** ** Lookups in a collection that grows at its end *)

Lemma find_ticket_app (tid : string) (l k : list Ticket) :
  find_ticket tid (l ++ k)
  = match find_ticket tid l with
    | Some t => Some t
    | None => find_ticket tid k
    end.
Proof.
  induction l as [|t l IH]; simpl; [reflexivity|].
  case_bool_decide; [reflexivity | exact IH].
Qed.

Lemma find_nego_app (nid : string) (l k : list Negotiation) :
  find_nego nid (l ++ k)
  = match find_nego nid l with
    | Some n => Some n
    | None => find_nego nid k
    end.
Proof.
  induction l as [|n l IH]; simpl; [reflexivity|].
  case_bool_decide; [reflexivity | exact IH].
Qed.

(** ** The handlers, one component of the world at a time *)

Lemma submit_cases (sid : string) (pm : party_msg) (w : World) :
  (∃ n, find_nego (pm_negotiationId pm) (negos w) = Some n
        ∧ pm_recorded pm n = pm_claimed pm)
  ∨ (find_nego (pm_negotiationId pm) (negos w) = None
     ∨ ∃ n, find_nego (pm_negotiationId pm) (negos w) = Some n
            ∧ pm_recorded pm n ≠ pm_claimed pm).
Proof.
  destruct (find_nego (pm_negotiationId pm) (negos w)) as [n|] eqn:Hn.
  - destruct (decide (pm_recorded pm n = pm_claimed pm)); [left | right; right];
      eauto.
  - right. by left.
Qed.

Lemma join_cases (jm : join_msg) (w : World) :
  jm_valid jm w
  ∨ (find_nego (jm_negotiationId jm) (negos w) = None
     ∨ ∃ n, find_nego (jm_negotiationId jm) (negos w) = Some n
            ∧ jm_recorded jm n ≠ jm_claimed jm).
Proof.
  unfold jm_valid.
  destruct (find_nego (jm_negotiationId jm) (negos w)) as [n|] eqn:Hn.
  - destruct (decide (jm_recorded jm n = jm_claimed jm)); [left | right; right];
      eauto.
  - right. by left.
Qed.

Lemma start_negotiation_run (data : StartNegotiationReq) (w : World) :
  start_negotiation clock uuid4 data w
  = match find_ticket (sn_ticketId data) (tickets w) with
    | None => (Returned (ErrorBody "Ticket not found", 404), w)
    | Some t =>
        if bool_decide (t_status t = "available") then
          let nego :=
            mkNegotiation (uuid4 (steps w)) (sn_ticketId data) (t_sellerId t)
                          (sn_buyerId data) "open" PNone
                          (clock (S (steps w))) (clock (S (S (steps w)))) in
          (Returned (NegotiationBody nego, 201),
           mkWorld (tickets w) (negos w ++ [nego])%list (messages w)
                   (session_index w) (rooms w) (outbox w)
                   (S (S (S (steps w)))))
        else (Returned (ErrorBody "Ticket not available", 400), w)
    end.
Proof.
  unfold start_negotiation, bind, gets. simpl.
  destruct (find_ticket _ _) as [t|]; [|reflexivity].
  case_bool_decide; reflexivity.
Qed.

Lemma upload_ticket_run (data : UploadTicketReq) (w : World) :
  upload_ticket clock uuid4 data w
  = let details := default ∅ (ut_details data) in
    let ticket :=
      mkTicket (uuid4 (steps w)) (ut_sellerId data) (ut_category data) details
               (default PNone (details !! "price")) "available"
               (clock (S (steps w))) in
    (Raised (TypeError "Object of type ObjectId is not JSON serializable"),
     mkWorld (tickets w ++ [ticket])%list (negos w) (messages w)
             (session_index w) (rooms w) (outbox w) (S (S (steps w)))).
Proof. reflexivity. Qed.

Lemma generate_questions_run (category : option string) (w : World) :
  generate_questions cli_output json_loads_ok category w
  = (Raised (NameError "subprocess"), w).
Proof.
  unfold generate_questions, bind.
  assert (Hreq : load_name "request" w = (Returned tt, w))
    by (vm_compute; reflexivity).
  assert (Hsub : load_name "subprocess" w
                 = (Raised (NameError "subprocess"), w))
    by (vm_compute; reflexivity).
  by rewrite Hreq, Hsub.
Qed.

Lemma submit_frame (sid : string) (pm : party_msg) (w : World) :
  tickets (exec (submit clock ollama json_dumps sid pm) w) = tickets w
  ∧ negos (exec (submit clock ollama json_dumps sid pm) w) = negos w
  ∧ session_index (exec (submit clock ollama json_dumps sid pm) w)
    = session_index w
  ∧ rooms (exec (submit clock ollama json_dumps sid pm) w) = rooms w.
Proof.
  unfold exec.
  destruct (submit_cases sid pm w) as [(n & Hn & Hid) | Hrej].
  - by rewrite (submit_accepted clock ollama json_dumps sid pm w n Hn Hid).
  - by rewrite (submit_rejected clock ollama json_dumps sid pm w Hrej).
Qed.

(** X2.  A party message, accepted or not, writes to the transcript
    and the outbox only: tickets, negotiations, session bindings and
    rooms are as before. *)
Theorem party_message_frame (sid : string) (pm : party_msg) (w : World) :
  tickets (exec (submit clock ollama json_dumps sid pm) w) = tickets w
  ∧ negos (exec (submit clock ollama json_dumps sid pm) w) = negos w
  ∧ session_index (exec (submit clock ollama json_dumps sid pm) w)
    = session_index w
  ∧ rooms (exec (submit clock ollama json_dumps sid pm) w) = rooms w.
Proof. apply submit_frame. Qed.

Lemma join_frame (sid : string) (jm : join_msg) (w : World) :
  tickets (exec (join sid jm) w) = tickets w
  ∧ negos (exec (join sid jm) w) = negos w
  ∧ messages (exec (join sid jm) w) = messages w.
Proof.
  unfold exec. destruct (join_cases jm w) as [(n & Hn & Hid) | Hrej].
  - by rewrite (join_accepted sid jm w n Hn Hid).
  - by rewrite (join_rejected sid jm w Hrej).
Qed.

Lemma resolve_join_other (sid : string) (jm : join_msg) (w : World)
    (nid key : string) :
  nid ≠ jm_negotiationId jm ∨ key ≠ jm_key jm →
  resolve nid key (exec (join sid jm) w) = resolve nid key w.
Proof.
  intros Hother. unfold exec, resolve.
  destruct (join_cases jm w) as [(n & Hn & Hid) | Hrej].
  - rewrite (join_accepted sid jm w n Hn Hid). simpl.
    destruct (decide (jm_negotiationId jm = nid)) as [<- | Hne].
    + rewrite lookup_insert_eq. simpl.
      destruct Hother as [? | Hkey]; [done|].
      by rewrite lookup_insert_ne.
    + by rewrite lookup_insert_ne.
  - by rewrite (join_rejected sid jm w Hrej).
Qed.

(** X1.  A join, accepted or not, leaves every other slot as it was:
    the slots of other negotiations and the other role's slot of the
    same negotiation. *)
Theorem join_other_slots_untouched (sid : string) (jm : join_msg) (w : World)
    (nid key : string) :
  nid ≠ jm_negotiationId jm ∨ key ≠ jm_key jm →
  resolve nid key (exec (join sid jm) w) = resolve nid key w.
Proof. apply resolve_join_other. Qed.

(** X3.  Every event a party-message handler emits is either the
    [error] or the [agent_ack] for the sender, or the delivery event
    of its direction, addressed to the handle bound to the
    counterparty's slot of that very negotiation. *)
Theorem party_message_events_addressed (sid : string) (pm : party_msg)
    (w : World) (e : Event) :
  e ∈ emitted (submit clock ollama json_dumps sid pm) w →
  (ev_to e = sid ∧ ev_name e ∈ ["error"; "agent_ack"])
  ∨ (ev_name e = delivery_event (pm_direction pm)
     ∧ resolve (pm_negotiationId pm) (slot_key (pm_direction pm)) w
       = Some (ev_to e)).
Proof.
  intros He.
  destruct (submit_cases sid pm w) as [(n & Hn & Hid) | Hrej].
  - rewrite (emitted_accepted clock ollama json_dumps sid pm w n Hn Hid) in He.
    apply elem_of_app in He as [He | He].
    + right. destruct (resolve _ _ w) as [s|]; simpl in He; [|by inversion He].
      case_bool_decide; [by inversion He|].
      apply list_elem_of_singleton in He. by subst e.
    + left. apply list_elem_of_singleton in He. subst e. simpl.
      split; [done | repeat constructor].
  - rewrite (emitted_rejected clock ollama json_dumps sid pm w Hrej) in He.
    left. apply list_elem_of_singleton in He. subst e. simpl.
    split; [done | repeat constructor].
Qed.

(** X4.  A join emits exactly one event, to the joining connection
    and to no one else: the [system] notice when it is accepted, the
    [error] when it is not. *)
Theorem join_answers_joiner_only (sid : string) (jm : join_msg) (w : World) :
  ∃ e,
    outbox (exec (join sid jm) w) = (outbox w ++ [e])%list
    ∧ ev_to e = sid
    ∧ (ev_name e = "system" ↔ jm_valid jm w)
    ∧ (ev_name e = "error" ↔ ¬ jm_valid jm w).
Proof.
  unfold exec. destruct (join_cases jm w) as [Hv | Hrej].
  - destruct Hv as (n & Hn & Hid).
    rewrite (join_accepted sid jm w n Hn Hid). simpl.
    eexists. split; [reflexivity|]. simpl. split; [done|].
    assert (Hv : jm_valid jm w) by (exists n; done).
    split; split; try done; try (intros Hnv; by destruct Hnv).
  - rewrite (join_rejected sid jm w Hrej). simpl.
    eexists. split; [reflexivity|]. simpl. split; [done|].
    assert (Hnv : ¬ jm_valid jm w).
    { intros (n & Hn & Hid). destruct Hrej as [Hnone | (n' & Hn' & Hne)].
      - by rewrite Hnone in Hn.
      - rewrite Hn' in Hn. injection Hn as ->. done. }
    split; split; try done; try (intros Hv; by destruct Hnv).
Qed.

(** X5.  An accepted party message whose counterparty slot holds a
    handle is relayed: the delivery event for that handle, carrying
    the very reply stored in the transcript after its direction
    prefix, then the acknowledgement for the sender. *)
Theorem accepted_message_relayed (sid : string) (pm : party_msg) (w : World)
    (n : Negotiation) (peer : string) :
  find_nego (pm_negotiationId pm) (negos w) = Some n →
  pm_recorded pm n = pm_claimed pm →
  resolve (pm_negotiationId pm) (slot_key (pm_direction pm)) w = Some peer →
  peer ≠ "" →
  ∃ reply,
    emitted (submit clock ollama json_dumps sid pm) w
    = [ mkEvent (delivery_event (pm_direction pm)) (MessageDict reply) peer;
        mkEvent "agent_ack" (MessageDict (pm_ack pm)) sid ]
    ∧ m_text <$> last (messages (exec (submit clock ollama json_dumps sid pm) w))
      = Some (direction_prefix (pm_direction pm) +:+ reply).
Proof.
  intros Hn Hid Hpeer Hne. exists (pm_reply ollama json_dumps pm n w). split.
  - rewrite (emitted_accepted clock ollama json_dumps sid pm w n Hn Hid), Hpeer.
    simpl. by rewrite bool_decide_eq_false_2.
  - unfold exec.
    rewrite (submit_accepted clock ollama json_dumps sid pm w n Hn Hid). simpl.
    by rewrite last_snoc.
Qed.

Lemma relayed_events (sid : string) (pm : party_msg) (w : World)
    (n : Negotiation) (peer : string) :
  find_nego (pm_negotiationId pm) (negos w) = Some n →
  pm_recorded pm n = pm_claimed pm →
  resolve (pm_negotiationId pm) (slot_key (pm_direction pm)) w = Some peer →
  peer ≠ "" →
  emitted (submit clock ollama json_dumps sid pm) w
  = [ mkEvent (delivery_event (pm_direction pm))
              (MessageDict (pm_reply ollama json_dumps pm n w)) peer;
      mkEvent "agent_ack" (MessageDict (pm_ack pm)) sid ].
Proof.
  intros Hn Hid Hpeer Hne.
  rewrite (emitted_accepted clock ollama json_dumps sid pm w n Hn Hid), Hpeer.
  simpl. by rewrite bool_decide_eq_false_2.
Qed.

(** X6.  A handle that disconnects stays in its slot, so the next
    message of the counterparty is still addressed to it: the delivery
    event names the disconnected handle. *)
Theorem disconnected_handle_still_addressed (sid sender : string)
    (jm : join_msg) (pm : party_msg) (w : World) (n : Negotiation) :
  jm_valid jm w →
  sid ≠ "" →
  pm_negotiationId pm = jm_negotiationId jm →
  slot_key (pm_direction pm) = jm_key jm →
  find_nego (pm_negotiationId pm) (negos w) = Some n →
  pm_recorded pm n = pm_claimed pm →
  ∃ reply,
    emitted (submit clock ollama json_dumps sender pm)
            (exec (on_disconnect sid) (exec (join sid jm) w))
    = [ mkEvent (delivery_event (pm_direction pm)) (MessageDict reply) sid;
        mkEvent "agent_ack" (MessageDict (pm_ack pm)) sender ].
Proof.
  intros Hv Hsid Hnid Hkey Hn Hid.
  change (exec (on_disconnect sid) (exec (join sid jm) w))
    with (exec (join sid jm) w).
  eexists. apply (relayed_events sender pm _ n sid); [| done | | done].
  - by rewrite join_keeps_negos.
  - rewrite Hnid, Hkey. by apply resolve_after_join.
Qed.

(** X7.  Once seller and buyer of a negotiation have both joined,
    each one's message is relayed to the other's handle: the buyer's
    to the seller as [agent_to_seller], the seller's to the buyer as
    [agent_to_buyer]. *)
Theorem joined_parties_reach_each_other (sid_s sid_b : string)
    (js : JoinSellerData) (jb : JoinBuyerData)
    (bm : BuyerMsgData) (sm : SellerMsgData) (w : World) :
  jm_valid (JoinAsSeller js) w →
  jm_valid (JoinAsBuyer jb) w →
  jb_negotiationId jb = js_negotiationId js →
  bm_negotiationId bm = js_negotiationId js →
  sm_negotiationId sm = js_negotiationId js →
  bm_buyerId bm = jb_buyerId jb →
  sm_sellerId sm = js_sellerId js →
  sid_s ≠ "" →
  sid_b ≠ "" →
  let w2 := exec (join sid_b (JoinAsBuyer jb))
                 (exec (join sid_s (JoinAsSeller js)) w) in
  (∃ reply,
     emitted (submit clock ollama json_dumps sid_b (BuyerToAgent bm)) w2
     = [ mkEvent "agent_to_seller" (MessageDict reply) sid_s;
         mkEvent "agent_ack"
                 (MessageDict "Noted. I’m checking with the seller now.")
                 sid_b ])
  ∧ (∃ reply,
       emitted (submit clock ollama json_dumps sid_s (SellerToAgent sm)) w2
       = [ mkEvent "agent_to_buyer" (MessageDict reply) sid_b;
           mkEvent "agent_ack"
                   (MessageDict "Thanks. I’m relaying this to the buyer.")
                   sid_s ]).
Proof.
  intros Hvs Hvb Hjb Hbm Hsm Hbid Hsid Hs Hb w2.
  assert (Hnegos : negos w2 = negos w).
  { subst w2. by rewrite !join_keeps_negos. }
  assert (Hvb1 : jm_valid (JoinAsBuyer jb) (exec (join sid_s (JoinAsSeller js)) w)).
  { destruct Hvb as (n & Hn & Hid). exists n. by rewrite join_keeps_negos. }
  assert (Hrb : resolve (js_negotiationId js) "buyer_sid" w2 = Some sid_b).
  { subst w2. rewrite <- Hjb.
    exact (resolve_after_join sid_b (JoinAsBuyer jb) _ Hvb1). }
  assert (Hrs : resolve (js_negotiationId js) "seller_sid" w2 = Some sid_s).
  { subst w2. rewrite resolve_join_other by (right; discriminate).
    exact (resolve_after_join sid_s (JoinAsSeller js) _ Hvs). }
  destruct Hvs as (ns & Hns & Hids). destruct Hvb as (nb & Hnb & Hidb).
  simpl in *. rewrite Hjb in Hnb. rewrite Hns in Hnb. injection Hnb as <-.
  split; eexists.
  - apply (relayed_events sid_b (BuyerToAgent bm) w2 ns sid_s); simpl.
    + by rewrite Hnegos, Hbm.
    + by rewrite Hbid.
    + by rewrite Hbm.
    + done.
  - apply (relayed_events sid_s (SellerToAgent sm) w2 ns sid_b); simpl.
    + by rewrite Hnegos, Hsm.
    + by rewrite Hsid.
    + by rewrite Hsm.
    + done.
Qed.

(** ** Any sequence of requests *)

Local Abbreviation step' := (step clock uuid4 ollama json_dumps cli_output json_loads_ok).
Local Abbreviation run' := (run clock uuid4 ollama json_dumps cli_output json_loads_ok).

(** What one request adds to the three collections, and what it adds
    refers to. *)
Lemma step_collections (r : request) (w : World) :
  ∃ ts ns ms,
    tickets (step' r w) = (tickets w ++ ts)%list
    ∧ negos (step' r w) = (negos w ++ ns)%list
    ∧ messages (step' r w) = (messages w ++ ms)%list
    ∧ (∀ n, n ∈ ns →
         n_status n = "open"
         ∧ ∃ t, find_ticket (n_ticketId n) (tickets w) = Some t
                ∧ t_sellerId t = n_sellerId n)
    ∧ (∀ m, m ∈ ms →
         is_Some (find_nego (m_negotiationId m) (negos w))
         ∧ m_role m ∈ ["buyer"; "seller"; "agent"]).
Proof.
  assert (Hnone : ∀ w', tickets w' = tickets w → negos w' = negos w →
                        messages w' = messages w →
    ∃ ts ns ms,
      tickets w' = (tickets w ++ ts)%list
      ∧ negos w' = (negos w ++ ns)%list
      ∧ messages w' = (messages w ++ ms)%list
      ∧ (∀ n, n ∈ ns →
           n_status n = "open"
           ∧ ∃ t, find_ticket (n_ticketId n) (tickets w) = Some t
                  ∧ t_sellerId t = n_sellerId n)
      ∧ (∀ m, m ∈ ms →
           is_Some (find_nego (m_negotiationId m) (negos w))
           ∧ m_role m ∈ ["buyer"; "seller"; "agent"])).
  { intros w' Ht Hn Hm. exists [], [], []. rewrite !app_nil_r.
    split_and!; try done; intros x Hx; by inversion Hx. }
  destruct r as [data | category | data | category | sid | sid | sid jm | sid pm];
    unfold step.
  - unfold exec. rewrite upload_ticket_run. simpl.
    eexists [_], [], []. rewrite !app_nil_r.
    split_and!; try done; intros x Hx; by inversion Hx.
  - by apply Hnone.
  - unfold exec. rewrite start_negotiation_run.
    destruct (find_ticket (sn_ticketId data) (tickets w)) as [t|] eqn:Ht;
      [|by apply Hnone].
    case_bool_decide; [|by apply Hnone]. simpl.
    eexists [], [_], []. rewrite !app_nil_r.
    split_and!; try done; [|intros x Hx; by inversion Hx].
    intros n Hn. apply list_elem_of_singleton in Hn. subst n. simpl.
    split; [done|]. by exists t.
  - unfold exec. rewrite generate_questions_run. by apply Hnone.
  - by apply Hnone.
  - by apply Hnone.
  - destruct (join_frame sid jm w) as (Ht & Hn & Hm). by apply Hnone.
  - destruct (submit_frame sid pm w) as (Ht & Hn & _).
    destruct (submit_cases sid pm w) as [(n & Hfind & Hid) | Hrej].
    + exists [], [],
        [ mkMessage (pm_negotiationId pm) (pm_role pm) (pm_text pm)
                    (clock (steps w));
          mkMessage (pm_negotiationId pm) "agent"
                    (direction_prefix (pm_direction pm)
                     +:+ pm_reply ollama json_dumps pm n w)
                    (clock (S (S (steps w)))) ].
      rewrite !app_nil_r. split_and!; try done.
      * unfold exec.
        rewrite (submit_accepted clock ollama json_dumps sid pm w n Hfind Hid).
        simpl. by rewrite <- app_assoc.
      * intros x Hx; by inversion Hx.
      * intros m Hm. apply elem_of_cons in Hm as [-> | Hm]; simpl.
        -- split; [by eexists|]. destruct pm; simpl; repeat constructor.
        -- apply list_elem_of_singleton in Hm. subst m. simpl.
           split; [by eexists | repeat constructor].
    + apply Hnone; try done. unfold exec.
      by rewrite (submit_rejected clock ollama json_dumps sid pm w Hrej).
Qed.

Lemma find_nego_grows (nid : string) (l k : list Negotiation) :
  is_Some (find_nego nid l) → is_Some (find_nego nid (l ++ k)).
Proof. intros [n Hn]. rewrite find_nego_app, Hn. by eexists. Qed.

Lemma step_keeps_nego (r : request) (w : World) (nid : string)
    (n : Negotiation) :
  find_nego nid (negos w) = Some n →
  find_nego nid (negos (step' r w)) = Some n.
Proof.
  intros Hn. destruct (step_collections r w) as (ts & ns & ms & _ & -> & _).
  by rewrite find_nego_app, Hn.
Qed.

Lemma step_keeps_ticket (r : request) (w : World) (tid : string) (t : Ticket) :
  find_ticket tid (tickets w) = Some t →
  find_ticket tid (tickets (step' r w)) = Some t.
Proof.
  intros Ht. destruct (step_collections r w) as (ts & ns & ms & -> & _).
  by rewrite find_ticket_app, Ht.
Qed.

Lemma run_keeps_ticket (rs : list request) (w : World) (tid : string)
    (t : Ticket) :
  find_ticket tid (tickets w) = Some t →
  find_ticket tid (tickets (run' rs w)) = Some t.
Proof.
  revert w. induction rs as [|r rs IH]; intros w Ht; simpl; [done|].
  apply IH. by apply step_keeps_ticket.
Qed.

(** X8.  No sequence of requests changes or removes a negotiation:
    looked up by its identifier it is the same record, with the same
    seller, buyer, ticket and status, ever after. *)
Theorem negotiation_never_changes (rs : list request) (w : World)
    (nid : string) (n : Negotiation) :
  find_nego nid (negos w) = Some n →
  find_nego nid (negos (run' rs w)) = Some n.
Proof.
  revert w. induction rs as [|r rs IH]; intros w Hn; simpl; [done|].
  apply IH. by apply step_keeps_nego.
Qed.

(** X9.  A ticket that is available stays available whatever happens
    next, negotiations over it included: after any sequence of
    requests [start_negotiation] on it still answers 201 with a new
    open negotiation for the ticket's seller. *)
Theorem available_ticket_stays_negotiable (rs : list request) (w : World)
    (data : StartNegotiationReq) (t : Ticket) :
  find_ticket (sn_ticketId data) (tickets w) = Some t →
  t_status t = "available" →
  ∃ nego,
    result (start_negotiation clock uuid4 data) (run' rs w)
    = Returned (NegotiationBody nego, 201)
    ∧ n_status nego = "open"
    ∧ n_ticketId nego = sn_ticketId data
    ∧ n_sellerId nego = t_sellerId t
    ∧ n_buyerId nego = sn_buyerId data.
Proof.
  intros Ht Hst. unfold result. rewrite start_negotiation_run.
  rewrite (run_keeps_ticket rs w _ t Ht).
  rewrite bool_decide_eq_true_2 by done. simpl.
  eexists. split_and!; reflexivity.
Qed.

(** X10.  The transcript only grows at its end: after any sequence of
    requests the earlier transcript is a prefix of the later one. *)
Theorem transcript_append_only (rs : list request) (w : World) :
  messages w `prefix_of` messages (run' rs w).
Proof.
  revert w. induction rs as [|r rs IH]; intros w; simpl; [done|].
  etrans; [|apply IH].
  destruct (step_collections r w) as (ts & ns & ms & _ & _ & -> & _).
  by apply prefix_app_r.
Qed.

Lemma step_negos_wellformed (r : request) (w : World) :
  negos_wellformed w → negos_wellformed (step' r w).
Proof.
  intros Hw n Hn.
  destruct (step_collections r w) as (ts & ns & ms & Ht & Hns & _ & Hnew & _).
  rewrite Hns in Hn. rewrite Ht.
  assert (Hold : n_status n = "open"
                 ∧ ∃ t, find_ticket (n_ticketId n) (tickets w) = Some t
                        ∧ t_sellerId t = n_sellerId n).
  { apply elem_of_app in Hn as [Hn | Hn]; [by apply Hw | by apply Hnew]. }
  destruct Hold as (Hst & t & Hfind & Hsel). split; [done|].
  exists t. by rewrite find_ticket_app, Hfind.
Qed.

Lemma step_transcript_wellformed (r : request) (w : World) :
  transcript_wellformed w → transcript_wellformed (step' r w).
Proof.
  intros Hw m Hm.
  destruct (step_collections r w) as (ts & ns & ms & _ & Hns & Hms & _ & Hnew).
  rewrite Hms in Hm. rewrite Hns.
  assert (Hold : is_Some (find_nego (m_negotiationId m) (negos w))
                 ∧ m_role m ∈ ["buyer"; "seller"; "agent"]).
  { apply elem_of_app in Hm as [Hm | Hm]; [by apply Hw | by apply Hnew]. }
  destruct Hold as [Hfind Hrole]. split; [by apply find_nego_grows | done].
Qed.

Lemma resolve_same_index (nid key : string) (w w' : World) :
  session_index w' = session_index w → resolve nid key w' = resolve nid key w.
Proof. intros H. unfold resolve. by rewrite H. Qed.

(** The slots one request writes. *)
Lemma step_bindings (r : request) (w : World) (nid key sid : string) :
  resolve nid key (step' r w) = Some sid →
  resolve nid key w = Some sid
  ∨ ((key = "seller_sid" ∨ key = "buyer_sid")
     ∧ is_Some (find_nego nid (negos w))).
Proof.
  assert (Hsame : ∀ w', session_index w' = session_index w →
                        resolve nid key w' = Some sid →
                        resolve nid key w = Some sid
                        ∨ ((key = "seller_sid" ∨ key = "buyer_sid")
                           ∧ is_Some (find_nego nid (negos w)))).
  { intros w' Hidx Hr. left. by rewrite <- (resolve_same_index nid key w w'). }
  destruct r as [data | category | data | category | s | s | s jm | s pm];
    unfold step.
  - apply Hsame. unfold exec. by rewrite upload_ticket_run.
  - by apply Hsame.
  - apply Hsame. unfold exec. rewrite start_negotiation_run.
    destruct (find_ticket _ _) as [t|]; [|done]. by case_bool_decide.
  - apply Hsame. unfold exec. by rewrite generate_questions_run.
  - by apply Hsame.
  - by apply Hsame.
  - destruct (decide (nid = jm_negotiationId jm ∧ key = jm_key jm))
      as [[-> ->] | Hother].
    + destruct (join_cases jm w) as [(n & Hn & Hid) | Hrej].
      * intros _. right. split; [destruct jm; simpl; auto | by eexists].
      * apply Hsame. unfold exec. by rewrite (join_rejected s jm w Hrej).
    + rewrite resolve_join_other; [by left|].
      destruct (decide (nid = jm_negotiationId jm)); [right | by left].
      intros ->. by apply Hother.
  - apply Hsame. by destruct (submit_frame s pm w) as (_ & _ & ? & _).
Qed.

Lemma step_bindings_wellformed (r : request) (w : World) :
  bindings_wellformed w → bindings_wellformed (step' r w).
Proof.
  intros Hw nid key sid Hr.
  assert (Hold : (key = "seller_sid" ∨ key = "buyer_sid")
                 ∧ is_Some (find_nego nid (negos w))).
  { destruct (step_bindings r w nid key sid Hr) as [Hr' | H]; [|done].
    exact (Hw nid key sid Hr'). }
  destruct Hold as [Hkey Hfind]. split; [done|].
  destruct (step_collections r w) as (ts & ns & ms & _ & -> & _).
  by apply find_nego_grows.
Qed.

(** X11.  The handlers never close a negotiation and never part it
    from its ticket: if every negotiation is open and has its ticket's
    seller, that is still so after any sequence of requests. *)
Theorem negotiations_stay_open (rs : list request) (w : World) :
  negos_wellformed w → negos_wellformed (run' rs w).
Proof.
  revert w. induction rs as [|r rs IH]; intros w Hw; simpl; [done|].
  apply IH. by apply step_negos_wellformed.
Qed.

(** X12.  If every transcript entry names a negotiation of the
    collection and one of the roles [buyer], [seller], [agent], that
    is still so after any sequence of requests. *)
Theorem transcript_stays_wellformed (rs : list request) (w : World) :
  transcript_wellformed w → transcript_wellformed (run' rs w).
Proof.
  revert w. induction rs as [|r rs IH]; intros w Hw; simpl; [done|].
  apply IH. by apply step_transcript_wellformed.
Qed.

(** X13.  If every bound handle sits in the seller or the buyer slot
    of a negotiation of the collection, that is still so after any
    sequence of requests: no request binds a handle to a negotiation
    that does not exist, or under another key. *)
Theorem bindings_stay_wellformed (rs : list request) (w : World) :
  bindings_wellformed w → bindings_wellformed (run' rs w).
Proof.
  revert w. induction rs as [|r rs IH]; intros w Hw; simpl; [done|].
  apply IH. by apply step_bindings_wellformed.
Qed.

(** What one request adds to the transcript's timestamps, and how
    far it moves the step counter. *)
Lemma step_stamps (r : request) (w : World) :
  ∃ new : list nat,
    m_ts <$> messages (step' r w)
    = ((m_ts <$> messages w) ++ (clock <$> new))%list
    ∧ Sorted.StronglySorted lt new
    ∧ Forall (fun i => (steps w ≤ i < steps (step' r w))%nat) new
    ∧ (steps w ≤ steps (step' r w))%nat.
Proof.
  assert (Hnone : ∀ w', messages w' = messages w →
                        (steps w ≤ steps w')%nat →
    ∃ new : list nat,
      m_ts <$> messages w'
      = ((m_ts <$> messages w) ++ (clock <$> new))%list
      ∧ Sorted.StronglySorted lt new
      ∧ Forall (fun i => (steps w ≤ i < steps w')%nat) new
      ∧ (steps w ≤ steps w')%nat).
  { intros w' Hm Hs. exists []. rewrite Hm. simpl. rewrite app_nil_r.
    split_and!; [done | constructor | constructor | done]. }
  destruct r as [data | category | data | category | s | s | s jm | s pm];
    unfold step.
  - apply Hnone; unfold exec; rewrite upload_ticket_run; simpl; [done | lia].
  - by apply Hnone.
  - unfold exec. rewrite start_negotiation_run.
    destruct (find_ticket _ _) as [t|]; [|by apply Hnone].
    case_bool_decide; [|by apply Hnone]. apply Hnone; simpl; [done | lia].
  - apply Hnone; unfold exec; by rewrite generate_questions_run.
  - by apply Hnone.
  - by apply Hnone.
  - apply Hnone; unfold exec;
      destruct (join_cases jm w) as [(n & Hn & Hid) | Hrej];
      by rewrite ?(join_accepted s jm w n Hn Hid), ?(join_rejected s jm w Hrej).
  - destruct (submit_cases s pm w) as [(n & Hn & Hid) | Hrej].
    + exists [steps w; S (S (steps w))]. unfold exec.
      rewrite (submit_accepted clock ollama json_dumps s pm w n Hn Hid). simpl.
      split_and!.
      * by rewrite !fmap_app, <- app_assoc.
      * repeat constructor; lia.
      * repeat constructor; lia.
      * lia.
    + apply Hnone; unfold exec;
        by rewrite (submit_rejected clock ollama json_dumps s pm w Hrej).
Qed.

Lemma step_stamped (r : request) (w : World) :
  stamped clock w → stamped clock (step' r w).
Proof.
  intros (idx & Hts & Hsorted & Hbound).
  destruct (step_stamps r w) as (new & Hnew & Hsnew & Hbnew & Hsteps).
  exists (idx ++ new)%list. split_and!.
  - by rewrite Hnew, Hts, fmap_app.
  - apply sorting.StronglySorted_app. split_and!; [|done|done].
    intros i j Hi Hj.
    rewrite Forall_forall in Hbound. rewrite Forall_forall in Hbnew.
    specialize (Hbound i Hi). specialize (Hbnew j Hj). lia.
  - apply Forall_app. split.
    + eapply Forall_impl; [exact Hbound|]. simpl. intros i Hi. lia.
    + eapply Forall_impl; [exact Hbnew|]. simpl. intros i Hi. lia.
Qed.

Lemma run_stamped (rs : list request) (w : World) :
  stamped clock w → stamped clock (run' rs w).
Proof.
  revert w. induction rs as [|r rs IH]; intros w Hw; simpl; [done|].
  apply IH. by apply step_stamped.
Qed.

(** X14.  With a clock that never runs backwards, a transcript that
    starts empty is sorted by timestamp after any sequence of
    requests: insertion order and timestamp order agree. *)
Theorem transcript_sorted_by_time (rs : list request) (w : World) :
  (∀ i j : nat, (i ≤ j)%nat → clock i ≤ clock j) →
  messages w = [] →
  Sorted.StronglySorted Z.le (m_ts <$> messages (run' rs w)).
Proof.
  intros Hmono Hempty.
  assert (Hw : stamped clock w).
  { exists []. rewrite Hempty. split_and!; [done | constructor | constructor]. }
  destruct (run_stamped rs w Hw) as (idx & -> & Hsorted & _).
  eapply sorting.StronglySorted_fmap; [|exact Hsorted].
  intros i j Hij. apply Hmono. lia.
Qed.

(** ** From an upload to a conversation *)


(** X16.  The parties [start_negotiation] names can join the
    negotiation it returns (under a fresh identifier), each into their
    own slot; anyone claiming another identifier is turned away and
    binds nothing. *)
Theorem started_negotiation_joinable (data : StartNegotiationReq) (w : World)
    (t : Ticket) (sid : string) :
  find_ticket (sn_ticketId data) (tickets w) = Some t →
  t_status t = "available" →
  find_nego (uuid4 (steps w)) (negos w) = None →
  let w1 := exec (start_negotiation clock uuid4 data) w in
  let nid := uuid4 (steps w) in
  resolve nid "buyer_sid"
          (exec (join sid (JoinAsBuyer (mkJoinBuyerData nid (sn_buyerId data))))
                w1)
  = Some sid
  ∧ resolve nid "seller_sid"
            (exec (join sid (JoinAsSeller (mkJoinSellerData nid (t_sellerId t))))
                  w1)
    = Some sid
  ∧ (∀ other, other ≠ sn_buyerId data →
       session_index (exec (join sid (JoinAsBuyer (mkJoinBuyerData nid other)))
                           w1)
       = session_index w1)
  ∧ (∀ other, other ≠ t_sellerId t →
       session_index (exec (join sid (JoinAsSeller (mkJoinSellerData nid other)))
                           w1)
       = session_index w1).
Proof.
  intros Ht Hst Hfresh w1 nid.
  assert (Hn : find_nego nid (negos w1)
               = Some (mkNegotiation nid (sn_ticketId data) (t_sellerId t)
                                     (sn_buyerId data) "open" PNone
                                     (clock (S (steps w)))
                                     (clock (S (S (steps w)))))).
  { subst w1 nid. unfold exec. rewrite start_negotiation_run, Ht.
    rewrite bool_decide_eq_true_2 by done. simpl.
    rewrite find_nego_app, Hfresh. simpl. by rewrite bool_decide_eq_true_2. }
  split_and!.
  - apply (resolve_after_join sid (JoinAsBuyer (mkJoinBuyerData nid _)) w1).
    eexists. split; [exact Hn | reflexivity].
  - apply (resolve_after_join sid (JoinAsSeller (mkJoinSellerData nid _)) w1).
    eexists. split; [exact Hn | reflexivity].
  - intros other Hother. unfold exec.
    rewrite (join_rejected sid (JoinAsBuyer (mkJoinBuyerData nid other)) w1);
      [done|].
    right. eexists. split; [exact Hn|]. simpl. congruence.
  - intros other Hother. unfold exec.
    rewrite (join_rejected sid (JoinAsSeller (mkJoinSellerData nid other)) w1);
      [done|].
    right. eexists. split; [exact Hn|]. simpl. congruence.
Qed.

(** ** Ticket listing *)

(** X17.  [list_tickets] with a non-empty category returns exactly the
    tickets of that category, in the order of the collection, and
    changes nothing. *)
Theorem list_tickets_by_category (c : string) (w : World) :
  c ≠ "" →
  ∃ l,
    list_tickets (Some c) w = (Returned l, w)
    ∧ l `sublist_of` tickets w
    ∧ ∀ t, t ∈ l ↔ t ∈ tickets w ∧ t_category t = PStr c.
Proof.
  intros Hc. eexists. split_and!.
  - unfold list_tickets, bind, gets, ret.
    rewrite bool_decide_eq_false_2 by done. reflexivity.
  - apply sublist_filter.
  - intros t. rewrite list_elem_of_filter. split; intros [H1 H2]; by split.
Qed.


(** ** The file name of an OCR upload *)





End MoreProperties.

(** * The further properties on the concrete deployment *)

(** The buyer of [N1] joins; the seller slot of [N1] and the slots of
    [N2] are as before. *)
Lemma join_other_slots_untouched_witness :
  ("N1" ≠ "N1" ∨ "seller_sid" ≠ "buyer_sid")
  ∧ resolve "N1" "seller_sid" world_joined = Some "sidS".
Proof.
  assert (H : "N1" ≠ jm_negotiationId (JoinAsBuyer (mkJoinBuyerData "N1" (Some "B1")))
              ∨ "seller_sid" ≠ jm_key (JoinAsBuyer (mkJoinBuyerData "N1" (Some "B1")))).
  { right. discriminate. }
  split; [exact H|]. unfold world_joined.
  rewrite (join_other_slots_untouched "sidB"
             (JoinAsBuyer (mkJoinBuyerData "N1" (Some "B1")))
             (exec (join "sidS" (JoinAsSeller join_seller1)) world0)
             "N1" "seller_sid" H).
  vm_compute. reflexivity.
Defined.

(** The seller of [N1] writes once both have joined: the delivery
    event goes to the buyer's handle. *)
Lemma party_message_events_addressed_witness :
  mkEvent "agent_to_buyer" (MessageDict "Proposal: settle at 430.") "sidB"
  ∈ emitted (submit clock0 ollama_up json_dumps0 "sidS"
                    (SellerToAgent seller_msg1)) world_joined
  ∧ resolve "N1" "buyer_sid" world_joined = Some "sidB".
Proof.
  assert (Hin : mkEvent "agent_to_buyer"
                        (MessageDict "Proposal: settle at 430.") "sidB"
                ∈ emitted (submit clock0 ollama_up json_dumps0 "sidS"
                                  (SellerToAgent seller_msg1)) world_joined).
  { vm_compute. left. }
  split; [exact Hin|].
  destruct (party_message_events_addressed clock0 ollama_up json_dumps0 "sidS"
              (SellerToAgent seller_msg1) world_joined _ Hin)
    as [[_ Hname] | [_ Hres]]; [|exact Hres].
  exfalso. simpl in Hname.
  apply elem_of_cons in Hname as [Hname | Hname]; [discriminate Hname|].
  apply list_elem_of_singleton in Hname. discriminate Hname.
Defined.

(** The buyer of [N1] writes once the seller has joined. *)
Lemma accepted_message_relayed_witness :
  find_nego "N1" (negos world_joined) = Some nego1
  ∧ n_buyerId nego1 = bm_buyerId buyer_msg1
  ∧ resolve "N1" "seller_sid" world_joined = Some "sidS"
  ∧ "sidS" ≠ ""
  ∧ ∃ reply,
      emitted (submit clock0 ollama_up json_dumps0 "sidB"
                      (BuyerToAgent buyer_msg1)) world_joined
      = [ mkEvent "agent_to_seller" (MessageDict reply) "sidS";
          mkEvent "agent_ack"
                  (MessageDict "Noted. I’m checking with the seller now.")
                  "sidB" ]
      ∧ m_text <$> last (messages (exec (submit clock0 ollama_up json_dumps0
                                           "sidB" (BuyerToAgent buyer_msg1))
                                        world_joined))
        = Some ("(to seller) " +:+ reply).
Proof.
  assert (H1 : find_nego "N1" (negos world_joined) = Some nego1)
    by (vm_compute; reflexivity).
  assert (H2 : n_buyerId nego1 = bm_buyerId buyer_msg1) by reflexivity.
  assert (H3 : resolve "N1" "seller_sid" world_joined = Some "sidS")
    by (vm_compute; reflexivity).
  assert (H4 : "sidS" ≠ "") by discriminate.
  split_and!; [exact H1 | exact H2 | exact H3 | exact H4 |].
  exact (accepted_message_relayed clock0 ollama_up json_dumps0 "sidB"
           (BuyerToAgent buyer_msg1) world_joined nego1 "sidS" H1 H2 H3 H4).
Defined.

(** The seller of [N1] joins from [sidS] and disconnects; the buyer
    then writes. *)
Lemma disconnected_handle_still_addressed_witness :
  jm_valid (JoinAsSeller join_seller1) world0
  ∧ "sidS" ≠ ""
  ∧ find_nego "N1" (negos world0) = Some nego1
  ∧ n_buyerId nego1 = bm_buyerId buyer_msg1
  ∧ ∃ reply,
      emitted (submit clock0 ollama_up json_dumps0 "sidB"
                      (BuyerToAgent buyer_msg1))
              (exec (on_disconnect "sidS")
                    (exec (join "sidS" (JoinAsSeller join_seller1)) world0))
      = [ mkEvent "agent_to_seller" (MessageDict reply) "sidS";
          mkEvent "agent_ack"
                  (MessageDict "Noted. I’m checking with the seller now.")
                  "sidB" ].
Proof.
  assert (Hv : jm_valid (JoinAsSeller join_seller1) world0).
  { exists nego1. split; reflexivity. }
  assert (Hs : "sidS" ≠ "") by discriminate.
  assert (Hn : find_nego "N1" (negos world0) = Some nego1) by reflexivity.
  assert (Hid : n_buyerId nego1 = bm_buyerId buyer_msg1) by reflexivity.
  split_and!; [exact Hv | exact Hs | exact Hn | exact Hid |].
  exact (disconnected_handle_still_addressed clock0 ollama_up json_dumps0
           "sidS" "sidB" (JoinAsSeller join_seller1) (BuyerToAgent buyer_msg1)
           world0 nego1 Hv Hs eq_refl eq_refl Hn Hid).
Defined.

(** Seller and buyer of [N1] join from [sidS] and [sidB], and each
    writes. *)
Lemma joined_parties_reach_each_other_witness :
  jm_valid (JoinAsSeller join_seller1) world0
  ∧ jm_valid (JoinAsBuyer (mkJoinBuyerData "N1" (Some "B1"))) world0
  ∧ "sidS" ≠ "" ∧ "sidB" ≠ ""
  ∧ (∃ reply,
       emitted (submit clock0 ollama_up json_dumps0 "sidB"
                       (BuyerToAgent buyer_msg1)) world_joined
       = [ mkEvent "agent_to_seller" (MessageDict reply) "sidS";
           mkEvent "agent_ack"
                   (MessageDict "Noted. I’m checking with the seller now.")
                   "sidB" ])
  ∧ (∃ reply,
       emitted (submit clock0 ollama_up json_dumps0 "sidS"
                       (SellerToAgent seller_msg1)) world_joined
       = [ mkEvent "agent_to_buyer" (MessageDict reply) "sidB";
           mkEvent "agent_ack"
                   (MessageDict "Thanks. I’m relaying this to the buyer.")
                   "sidS" ]).
Proof.
  assert (Hvs : jm_valid (JoinAsSeller join_seller1) world0).
  { exists nego1. split; reflexivity. }
  assert (Hvb : jm_valid (JoinAsBuyer (mkJoinBuyerData "N1" (Some "B1"))) world0).
  { exists nego1. split; reflexivity. }
  assert (Hs : "sidS" ≠ "") by discriminate.
  assert (Hb : "sidB" ≠ "") by discriminate.
  split_and!; [exact Hvs | exact Hvb | exact Hs | exact Hb | |];
    apply (joined_parties_reach_each_other clock0 ollama_up json_dumps0
             "sidS" "sidB" join_seller1 (mkJoinBuyerData "N1" (Some "B1"))
             buyer_msg1 seller_msg1 world0 Hvs Hvb eq_refl eq_refl eq_refl
             eq_refl eq_refl Hs Hb).
Defined.

(** [N1] is the same record after two more negotiations over its
    ticket, a join, a message and a disconnect. *)
Lemma negotiation_never_changes_witness :
  find_nego "N1" (negos world0) = Some nego1
  ∧ find_nego "N1"
      (negos (run clock0 uuid0 ollama_up json_dumps0 cli_output0
                  json_loads_ok0 session2 world0))
    = Some nego1.
Proof.
  assert (H : find_nego "N1" (negos world0) = Some nego1) by reflexivity.
  split; [exact H|].
  exact (negotiation_never_changes clock0 uuid0 ollama_up json_dumps0
           cli_output0 json_loads_ok0 session2 world0 "N1" nego1 H).
Defined.

(** [T1] already carries [N1] and [N2]; after two more negotiations
    over it a further buyer still gets one. *)
Lemma available_ticket_stays_negotiable_witness :
  find_ticket "T1" (tickets world0) = Some ticket1
  ∧ t_status ticket1 = "available"
  ∧ ∃ nego,
      result (start_negotiation clock0 uuid0
                (mkStartNegotiationReq "T1" (Some "B4")))
             (run clock0 uuid0 ollama_up json_dumps0 cli_output0
                  json_loads_ok0 session2 world0)
      = Returned (NegotiationBody nego, 201)
      ∧ n_status nego = "open"
      ∧ n_ticketId nego = "T1"
      ∧ n_sellerId nego = Some "S1"
      ∧ n_buyerId nego = Some "B4".
Proof.
  assert (H1 : find_ticket "T1" (tickets world0) = Some ticket1)
    by reflexivity.
  assert (H2 : t_status ticket1 = "available") by reflexivity.
  split; [exact H1|]. split; [exact H2|].
  exact (available_ticket_stays_negotiable clock0 uuid0 ollama_up json_dumps0
           cli_output0 json_loads_ok0 session2 world0
           (mkStartNegotiationReq "T1" (Some "B4")) ticket1 H1 H2).
Defined.

(** The session from the empty database. *)
Lemma negotiations_stay_open_witness :
  negos_wellformed world_empty
  ∧ negos_wellformed (run clock0 uuid0 ollama_up json_dumps0 cli_output0
                          json_loads_ok0 session1 world_empty).
Proof.
  assert (H : negos_wellformed world_empty).
  { intros n Hn. simpl in Hn. by apply elem_of_nil in Hn. }
  split; [exact H|].
  exact (negotiations_stay_open clock0 uuid0 ollama_up json_dumps0
           cli_output0 json_loads_ok0 session1 world_empty H).
Defined.

Lemma transcript_stays_wellformed_witness :
  transcript_wellformed world_empty
  ∧ transcript_wellformed (run clock0 uuid0 ollama_up json_dumps0 cli_output0
                               json_loads_ok0 session1 world_empty).
Proof.
  assert (H : transcript_wellformed world_empty).
  { intros m Hm. simpl in Hm. by apply elem_of_nil in Hm. }
  split; [exact H|].
  exact (transcript_stays_wellformed clock0 uuid0 ollama_up json_dumps0
           cli_output0 json_loads_ok0 session1 world_empty H).
Defined.

Lemma bindings_stay_wellformed_witness :
  bindings_wellformed world_empty
  ∧ bindings_wellformed (run clock0 uuid0 ollama_up json_dumps0 cli_output0
                             json_loads_ok0 session1 world_empty).
Proof.
  assert (H : bindings_wellformed world_empty).
  { intros nid key sid Hr. unfold resolve in Hr. simpl in Hr.
    rewrite lookup_empty in Hr. simpl in Hr. rewrite lookup_empty in Hr.
    discriminate Hr. }
  split; [exact H|].
  exact (bindings_stay_wellformed clock0 uuid0 ollama_up json_dumps0
           cli_output0 json_loads_ok0 session1 world_empty H).
Defined.


(** A negotiation over [T1] for buyer [B2], then the joins. *)
Lemma started_negotiation_joinable_witness :
  find_ticket "T1" (tickets world0) = Some ticket1
  ∧ t_status ticket1 = "available"
  ∧ find_nego (uuid0 0) (negos world0) = None
  ∧ resolve "uuid-0" "buyer_sid"
            (exec (join "sidB" (JoinAsBuyer (mkJoinBuyerData "uuid-0" (Some "B2"))))
                  (exec (start_negotiation clock0 uuid0
                           (mkStartNegotiationReq "T1" (Some "B2"))) world0))
    = Some "sidB".
Proof.
  assert (H1 : find_ticket "T1" (tickets world0) = Some ticket1)
    by reflexivity.
  assert (H2 : t_status ticket1 = "available") by reflexivity.
  assert (H3 : find_nego (uuid0 (steps world0)) (negos world0) = None)
    by reflexivity.
  split_and!; [exact H1 | exact H2 | exact H3 |].
  exact (proj1 (started_negotiation_joinable clock0 uuid0
                  (mkStartNegotiationReq "T1" (Some "B2")) world0 ticket1
                  "sidB" H1 H2 H3)).
Defined.

(** The bus tickets of [world0]. *)
Lemma list_tickets_by_category_witness :
  "bus" ≠ ""
  ∧ ∃ l,
      list_tickets (Some "bus") world0 = (Returned l, world0)
      ∧ l `sublist_of` tickets world0
      ∧ ∀ t, t ∈ l ↔ t ∈ tickets world0 ∧ t_category t = PStr "bus".
Proof.
  assert (H : "bus" ≠ "") by discriminate.
  split; [exact H|].
  exact (list_tickets_by_category "bus" world0 H).
Defined.



(** The clock of the deployment only moves forward. *)
Lemma transcript_sorted_by_time_witness :
  (∀ i j : nat, (i ≤ j)%nat → clock0 i ≤ clock0 j)
  ∧ messages world_empty = []
  ∧ Sorted.StronglySorted Z.le
      (m_ts <$> messages (run clock0 uuid0 ollama_up json_dumps0 cli_output0
                              json_loads_ok0 session1 world_empty)).
Proof.
  assert (H1 : ∀ i j : nat, (i ≤ j)%nat → clock0 i ≤ clock0 j).
  { intros i j Hij. unfold clock0. lia. }
  assert (H2 : messages world_empty = []) by reflexivity.
  split; [exact H1|]. split; [exact H2|].
  exact (transcript_sorted_by_time clock0 uuid0 ollama_up json_dumps0
           cli_output0 json_loads_ok0 session1 world_empty H1 H2).
Defined.
